(** * The Hartmann6 developer-API tutorial (tutorials/gpei_hartmann_developer.ipynb)

    The notebook defines an evaluation callback, a search space, an
    experiment with one outcome constraint, and a loop that asks two
    generation strategies for trials.  This file embeds those four code
    cells and states what they compute.

    Numbers are IEEE binary64 values ([float], the kernel's primitive
    floats), which is what Python's [float] and numpy's [float64] are. *)

From Stdlib Require Import Floats.
From stdpp Require Import gmap strings list pretty.

(** ** Python values, exceptions and the caller's dictionary *)

(** The exceptions a run of the evaluation function can end in.  The modelled
    numpy operations raise [TypeError] only; [OtherError] stands for whatever
    else a library helper may raise. *)
Inductive exn : Type :=
  | TypeError
  | OtherError.

(** The outcome of evaluating a Python expression. *)
Inductive outcome (A : Type) : Type :=
  | Return (a : A)
  | Raise (e : exn).
Arguments Return {A} a.
Arguments Raise {A} e.

(** A parameterization is a [dict] of parameter names to the values of those
    parameters; the parameters of this notebook are of floating-point type.
    A Python object that is either a float or [None] is an [option float]. *)
Abbreviation dict := (gmap string float).
Abbreviation object := (option float).

(** Python passes the dictionary by reference: a computation of the function
    body runs against that object and leaves it in some state, whether it
    returns or raises. *)
Definition py (A : Type) : Type := dict → outcome A * dict.

#[global] Instance py_ret : MRet py := λ A a d, (Return a, d).
#[global] Instance py_bind : MBind py := λ A B f m d,
  match m d with
  | (Return a, d') => f a d'
  | (Raise e, d') => (Raise e, d')
  end.

(** An expression that does not touch the dictionary. *)
Definition lift {A} (o : outcome A) : py A := λ d, (o, d).

(** A function body run against the dictionary object it was called with. *)
Definition run {A} (d : dict) (body : py A) : outcome A * dict := body d.

(** [parameterization.get(k)]: the value at [k], or [None]; the dictionary is
    not changed. *)
Definition dict_get (k : string) : py object := λ d, (Return (d !! k), d).

(** [range(n)]. *)
Definition range (n : nat) : list nat := seq 0 n.

(** The f-string [f"x{i}"]. *)
Definition fstring_x (i : nat) : string := "x" +:+ pretty i.

(** ** The numpy operations the notebook calls *)

Module np.

(** An array is of dtype [float64] when every element is a float, and of
    dtype [object] when an element is [None]. *)
Inductive ndarray : Type :=
  | Float64 (xs : list float)
  | Object (vs : list object).

Definition all_floats (vs : list object) : option (list float) :=
  mapM (M := option) id vs.

(** [np.array(vs)]. *)
Definition array (vs : list object) : ndarray :=
  match all_floats vs with
  | Some xs => Float64 xs
  | None => Object vs
  end.

(** [v ** 2] on one Python object: [None] has no [__pow__].  (The square of
    a float object is written as a product; an [object] array built by
    [array] holds a [None], so of such an array only the raise is observed.) *)
Definition object_square (v : object) : outcome object :=
  match v with
  | Some f => Return (Some (f * f)%float)
  | None => Raise TypeError
  end.

(** [v + w] on Python objects. *)
Definition object_add (v w : object) : outcome object :=
  match v, w with
  | Some f, Some g => Return (Some (f + g)%float)
  | _, _ => Raise TypeError
  end.

Fixpoint each {A B} (f : A → outcome B) (l : list A) : outcome (list B) :=
  match l with
  | [] => Return []
  | a :: l' =>
      match f a with
      | Raise e => Raise e
      | Return b =>
          match each f l' with
          | Raise e => Raise e
          | Return bs => Return (b :: bs)
          end
      end
  end.

Fixpoint reduce {A} (f : A → A → outcome A) (acc : A) (l : list A) : outcome A :=
  match l with
  | [] => Return acc
  | a :: l' =>
      match f acc a with
      | Raise e => Raise e
      | Return acc' => reduce f acc' l'
      end
  end.

(** [x ** 2]: elementwise; on [float64] the square is the product of the
    element with itself and cannot fail, on [object] it is Python's [**]
    applied to the elements in turn. *)
Definition square (x : ndarray) : outcome ndarray :=
  match x with
  | Float64 xs => Return (Float64 (map (λ v, v * v)%float xs))
  | Object vs =>
      match each object_square vs with
      | Return ws => Return (Object ws)
      | Raise e => Raise e
      end
  end.

(** [x.sum()]: on [float64] the elements are added, from left to right, onto
    a zero; on [object] Python's [+] is applied from the first element on. *)
Definition sum (x : ndarray) : outcome object :=
  match x with
  | Float64 xs => Return (Some (fold_left PrimFloat.add xs 0%float))
  | Object [] => Return (Some 0%float)
  | Object (v :: vs) => reduce object_add v vs
  end.

(** [np.sqrt(v)] on a scalar. *)
Definition sqrt (v : object) : outcome float :=
  match v with
  | Some f => Return (PrimFloat.sqrt f)
  | None => Raise TypeError
  end.

End np.

(** Modelled from the spec: the helper [hartmann6] imported from
    [ax.utils.measurement.synthetic_functions], whose body is not among the
    sources.  The spec calls it the standard Hartmann6 benchmark, a
    closed-form numeric function of the six coordinates; it is a parameter
    here, so that every result below holds whatever it computes.
    [hartmann6_object] is what the same helper does when handed an array of
    dtype [object]: that is described nowhere, so nothing is assumed of it. *)
Class synthetic_functions : Type := {
  hartmann6 : list float → float;
  hartmann6_object : list object → outcome float
}.

(** ** The library classes the notebook instantiates

    Their constructors store the keyword arguments they are given. *)

Inductive ParameterType : Type := BOOL | INT | FLOAT | STRING.

Inductive ComparisonOp : Type := GEQ | LEQ.

Module RangeParameter.
Record t : Type := {
  name : string;
  parameter_type : ParameterType;
  lower : float;
  upper : float
}.
End RangeParameter.

Module SearchSpace.
Record t : Type := { parameters : list RangeParameter.t }.
End SearchSpace.

Module L2NormMetric.
Record t : Type := {
  name : string;
  param_names : list string;
  noise_sd : float
}.
End L2NormMetric.

Module OutcomeConstraint.
Record t : Type := {
  metric : L2NormMetric.t;
  op : ComparisonOp;
  bound : float;
  relative : bool
}.
End OutcomeConstraint.

(** What an evaluation function returns: metric names to (mean, standard
    error); and its signature: called with a parameterization and a weight, it
    returns or raises, and leaves the dictionary in some state. *)
Abbreviation metrics := (gmap string (float * float)).
Abbreviation evaluation := (dict → option float → outcome metrics * dict).

Module Trial.
Record t (GeneratorRun : Type) : Type := {
  index : nat;
  generator_run : GeneratorRun
}.
Arguments index {GeneratorRun} _.
Arguments generator_run {GeneratorRun} _.
End Trial.

Module SimpleExperiment.
(** The keyword arguments of the constructor, and the trials the experiment
    object has accumulated. *)
Record t (GeneratorRun : Type) : Type := {
  name : string;
  search_space : SearchSpace.t;
  evaluation_function : evaluation;
  objective_name : string;
  minimize : bool;
  outcome_constraints : list OutcomeConstraint.t;
  trials : list (Trial.t GeneratorRun)
}.
Arguments name {GeneratorRun} _.
Arguments search_space {GeneratorRun} _.
Arguments evaluation_function {GeneratorRun} _.
Arguments objective_name {GeneratorRun} _.
Arguments minimize {GeneratorRun} _.
Arguments outcome_constraints {GeneratorRun} _.
Arguments trials {GeneratorRun} _.

(** Modelled from the spec: the trial-creation call [exp.new_trial], whose
    body is not among the sources.  It adds one trial, holding the generator
    run it is given, to the trials the experiment accumulates; the new
    trial's index is the number of trials before it. *)
Definition new_trial {GeneratorRun}
    (exp : t GeneratorRun) (generator_run : GeneratorRun)
    : Trial.t GeneratorRun * t GeneratorRun :=
  let trial := {| Trial.index := length (trials exp);
                  Trial.generator_run := generator_run |} in
  (trial,
   {| name := name exp;
      search_space := search_space exp;
      evaluation_function := evaluation_function exp;
      objective_name := objective_name exp;
      minimize := minimize exp;
      outcome_constraints := outcome_constraints exp;
      trials := trials exp ++ [trial] |}).
End SimpleExperiment.

(** The generation side of the library, which the notebook only calls: the
    two model factories, [gen] on a model, and the data-retrieval call
    [exp.eval()].  Each call may read and change [World], the state the
    library keeps (the position in the Sobol sequence, random seeds, cached
    evaluations), and returns; an exception raised inside the library is not
    handled by the notebook and is not modelled. *)
Class Ax : Type := {
  Model : Type;
  GeneratorRun : Type;
  Data : Type;
  World : Type;
  ax_SOBOL : SearchSpace.t → World → Model * World;
  ax_GPEI : SimpleExperiment.t GeneratorRun → Data → World → Model * World;
  ax_gen : Model → nat → World → GeneratorRun * World;
  ax_eval : SimpleExperiment.t GeneratorRun → World → Data * World
}.

(** ** The notebook session: the experiment object, the library's state, and
    the calls made so far *)

(** A call the notebook makes, with its arguments and what it returned. *)
Inductive call `{Ax} : Type :=
  | CallPrint (line : string)
  | CallSOBOL (search_space : SearchSpace.t) (result : Model)
  | CallGPEI (experiment : SimpleExperiment.t GeneratorRun) (data : Data)
      (result : Model)
  | CallGen (model : Model) (n : nat) (result : GeneratorRun)
  | CallEval (experiment : SimpleExperiment.t GeneratorRun) (result : Data)
  | CallNewTrial (generator_run : GeneratorRun) (result : Trial.t GeneratorRun).

Record session `{Ax} : Type := {
  exp_object : SimpleExperiment.t GeneratorRun;
  world : World;
  calls : list call
}.

Definition nb `{Ax} (A : Type) : Type := session → A * session.

#[global] Instance nb_ret `{Ax} : MRet nb := λ A a s, (a, s).
#[global] Instance nb_bind `{Ax} : MBind nb := λ A B f m s,
  let '(a, s') := m s in f a s'.

(** A library call: it runs on the library's state and is recorded with its
    result. *)
Definition library `{Ax} {A} (f : World → A * World) (record : A → call) : nb A :=
  λ s, let '(a, w) := f (world s) in
       (a, {| exp_object := exp_object s; world := w;
              calls := calls s ++ [record a] |}).

Definition print `{Ax} (line : string) : nb unit :=
  λ s, ((), {| exp_object := exp_object s; world := world s;
               calls := calls s ++ [CallPrint line] |}).

(** The global [exp]: evaluating the name yields the object as it is now. *)
Definition exp_now `{Ax} : nb (SimpleExperiment.t GeneratorRun) :=
  λ s, (exp_object s, s).

Module Models.
(** [Models.SOBOL(search_space)] *)
Definition SOBOL `{Ax} (search_space : SearchSpace.t) : nb Model :=
  library (ax_SOBOL search_space) (CallSOBOL search_space).
(** [Models.GPEI(experiment=..., data=...)] *)
Definition GPEI `{Ax} (experiment : SimpleExperiment.t GeneratorRun) (data : Data)
    : nb Model :=
  library (ax_GPEI experiment data) (CallGPEI experiment data).
End Models.

(** [model.gen(n)] *)
Definition gen `{Ax} (model : Model) (n : nat) : nb GeneratorRun :=
  library (ax_gen model n) (CallGen model n).

(** [exp.eval()] *)
Definition exp_eval `{Ax} : nb Data :=
  exp ← exp_now;
  library (ax_eval exp) (CallEval exp).

(** [exp.new_trial(generator_run=...)]: the experiment object is updated in
    place. *)
Definition exp_new_trial `{Ax} (generator_run : GeneratorRun)
    : nb (Trial.t GeneratorRun) :=
  λ s, let '(trial, exp') := SimpleExperiment.new_trial (exp_object s) generator_run in
       (trial, {| exp_object := exp'; world := world s;
                  calls := calls s ++ [CallNewTrial generator_run trial] |}).

(** [for i in l: body]. *)
Fixpoint for_in `{Ax} {A} (l : list A) (body : A → nb unit) : nb unit :=
  match l with
  | [] => mret ()
  | a :: l' => body a;; for_in l' body
  end.

(** The names [f"x{i}" for i in range(6)], and the values a dictionary holds
    at them ([None] where it has none). *)
Definition param_names : list string := fstring_x <$> range 6.

Definition vector (p : dict) : list object := (λ k, p !! k) <$> param_names.

(** A parameterization supplies all six coordinates. *)
Definition supplies_all (p : dict) : Prop :=
  Forall (λ k, is_Some (p !! k)) param_names.

(** ** The notebook *)

Section Notebook.

Context {synthetic : synthetic_functions}.

(** [hartmann6(x)]. *)
Definition call_hartmann6 (x : np.ndarray) : outcome float :=
  match x with
  | np.Float64 xs => Return (hartmann6 xs)
  | np.Object vs => hartmann6_object vs
  end.

(** *** 1. Define evaluation function *)

(** The dictionary display
    [{"hartmann6": (h, 0.0), "l2norm": (l, 0.0)}]. *)
Definition metrics_display (h l : float) : metrics :=
  <["l2norm" := (l, 0.0%float)]> (<["hartmann6" := (h, 0.0%float)]> ∅).

Definition hartmann_evaluation_function
    (parameterization : dict) (weight : option float) : outcome metrics * dict :=
  run parameterization (
    vals ← mapM (λ i, dict_get (fstring_x i)) (range 6);
    let x := np.array vals in
    h ← lift (call_hartmann6 x);
    sq ← lift (np.square x);
    s ← lift (np.sum sq);
    l ← lift (np.sqrt s);
    mret (metrics_display h l)).

(** *** 2. Create Search Space *)

Definition hartmann_search_space : SearchSpace.t :=
  {| SearchSpace.parameters :=
       (λ i, {| RangeParameter.name := fstring_x i;
                RangeParameter.parameter_type := FLOAT;
                RangeParameter.lower := 0.0;
                RangeParameter.upper := 1.0 |}) <$> range 6 |}.

(** *** 3. Create Experiment *)

Context {ax : Ax}.

(** [0.2] is read as the binary64 value nearest to it. *)
Definition exp : SimpleExperiment.t GeneratorRun :=
  {| SimpleExperiment.name := "test_branin";
     SimpleExperiment.search_space := hartmann_search_space;
     SimpleExperiment.evaluation_function := hartmann_evaluation_function;
     SimpleExperiment.objective_name := "hartmann6";
     SimpleExperiment.minimize := true;
     SimpleExperiment.outcome_constraints :=
       [ {| OutcomeConstraint.metric :=
              {| L2NormMetric.name := "l2norm";
                 L2NormMetric.param_names := param_names;
                 L2NormMetric.noise_sd := 0x1.999999999999ap-3 |};
            OutcomeConstraint.op := LEQ;
            OutcomeConstraint.bound := 1.25;
            OutcomeConstraint.relative := false |} ];
     SimpleExperiment.trials := [] |}.

(** *** 4. Perform Optimization *)

Definition optimization : nb unit :=
  print "Running Sobol initialization trials...";;
  experiment ← exp_now;
  sobol ← Models.SOBOL (SimpleExperiment.search_space experiment);
  for_in (range 5) (λ i,
    generator_run ← gen sobol 1;
    exp_new_trial generator_run;;
    mret ());;
  for_in (range 15) (λ i,
    print ("Running GP+EI optimization trial " +:+ pretty (i + 1) +:+ "/15...");;
    (* Reinitialize GP+EI model at each step with updated data. *)
    experiment ← exp_now;
    data ← exp_eval;
    gpei ← Models.GPEI experiment data;
    generator_run ← gen gpei 1;
    batch ← exp_new_trial generator_run;
    mret ());;
  print "Done!".

(** The session in which the optimization starts: [exp] as just built, and
    nothing called yet. *)
Definition fresh (w : World) : session :=
  {| exp_object := exp; world := w; calls := [] |}.

End Notebook.

(** ** The calls the optimization is expected to make

    The claim about the loop, written out as the list of calls it describes;
    the run of [optimization] is compared with it below. *)

Section Expected.

Context `{Ax}.

(** The experiment after one trial per generator run of [runs] was added. *)
Definition with_runs (e : SimpleExperiment.t GeneratorRun) (runs : list GeneratorRun)
    : SimpleExperiment.t GeneratorRun :=
  fold_left (λ e g, (SimpleExperiment.new_trial e g).2) runs e.

(** A Sobol trial: [gen(1)] on the one Sobol model, then the trial that
    holds the run. *)
Fixpoint sobol_trials (sobol : Model) (e : SimpleExperiment.t GeneratorRun)
    (runs : list GeneratorRun) : list call :=
  match runs with
  | [] => []
  | g :: runs' =>
      let '(trial, e') := SimpleExperiment.new_trial e g in
      CallGen sobol 1 g :: CallNewTrial g trial :: sobol_trials sobol e' runs'
  end.

(** A GP+EI trial, the one of loop index [i]: the progress line, the data of
    the experiment as it stands, a model built from that experiment and
    that data, [gen(1)] on that model, then the trial that holds the run. *)
Fixpoint gpei_trials (e : SimpleExperiment.t GeneratorRun) (i : nat)
    (steps : list (Data * Model * GeneratorRun)) : list call :=
  match steps with
  | [] => []
  | (data, gpei, g) :: steps' =>
      let '(trial, e') := SimpleExperiment.new_trial e g in
      CallPrint ("Running GP+EI optimization trial " +:+ pretty (i + 1) +:+ "/15...")
        :: CallEval e data :: CallGPEI e data gpei :: CallGen gpei 1 g
        :: CallNewTrial g trial
        :: gpei_trials e' (S i) steps'
  end.

End Expected.

(** ** Sample inputs

    Concrete dictionaries, a stand-in for the benchmark helper and a library
    with observable answers, on which the statements below are
    instantiated. *)

Definition sample : dict :=
  list_to_map [("x0", 0.5); ("x1", 0.25); ("x2", 0.75);
               ("x3", 0.0); ("x4", 1.0); ("x5", 0.125)]%float.

Definition origin : dict :=
  list_to_map [("x0", 0.0); ("x1", 0.0); ("x2", 0.0);
               ("x3", 0.0); ("x4", 0.0); ("x5", 0.0)]%float.

(** [sample] with a key the function does not read. *)
Definition sample_extra : dict := <["batch" := 7.0%float]> sample.

(** [sample] without its last coordinate. *)
Definition sample_without_x5 : dict := delete "x5" sample.

Definition stand_in : synthetic_functions :=
  {| hartmann6 := λ xs, (- fold_left PrimFloat.add xs 0)%float;
     hartmann6_object := λ vs, Return 0.0%float |}.

(** A library that counts: the data of an experiment is the number of its
    trials, a model remembers the data it was built from ([None] for Sobol),
    and a generator run carries its model and the number of runs generated
    before it. *)
Definition counting : Ax :=
  {| Model := option nat; GeneratorRun := option nat * nat; Data := nat; World := nat;
     ax_SOBOL := λ _ w, (None, w);
     ax_GPEI := λ _ data w, (Some data, w);
     ax_gen := λ model _ w, ((model, w), S w);
     ax_eval := λ e w, (length (SimpleExperiment.trials e), w) |}.

(** ** The rest of the notebook: inspecting trials and the best-objective trace *)

(** What the optimization printed: the [print] calls, in order. *)
Definition stdout `{Ax} (cs : list call) : list string :=
  omap (λ c, match c with CallPrint line => Some line | _ => None end) cs.

(** The output recorded in the notebook under the optimization cell. *)
Definition recorded_stdout : list string :=
  [ "Running Sobol initialization trials...";
    "Running GP+EI optimization trial 1/15...";
    "Running GP+EI optimization trial 2/15...";
    "Running GP+EI optimization trial 3/15...";
    "Running GP+EI optimization trial 4/15...";
    "Running GP+EI optimization trial 5/15...";
    "Running GP+EI optimization trial 6/15...";
    "Running GP+EI optimization trial 7/15...";
    "Running GP+EI optimization trial 8/15...";
    "Running GP+EI optimization trial 9/15...";
    "Running GP+EI optimization trial 10/15...";
    "Running GP+EI optimization trial 11/15...";
    "Running GP+EI optimization trial 12/15...";
    "Running GP+EI optimization trial 13/15...";
    "Running GP+EI optimization trial 14/15...";
    "Running GP+EI optimization trial 15/15...";
    "Done!" ].

(** [exp.trials[i]] (5. Inspect trials' data): the trials are a dictionary
    keyed by trial index; [None] is the [KeyError] of a missing key. *)
Definition trials_getitem {GeneratorRun} (e : SimpleExperiment.t GeneratorRun) (i : nat)
    : option (Trial.t GeneratorRun) :=
  find (λ t, bool_decide (Trial.index t = i)) (SimpleExperiment.trials e).

(** [np.minimum] and [np.minimum.accumulate(a, axis=1)] on a two-dimensional
    [float64] array, given as the list of its rows. *)
Module np_minimum.

(** The elementwise minimum: the first operand when it is not above the
    second or is a NaN, the second otherwise; so a NaN on either side
    gives a NaN. *)
Definition ufunc (in1 in2 : float) : float :=
  if (in1 <=? in2)%float || is_nan in1 then in1 else in2.

Fixpoint running (acc : float) (xs : list float) : list float :=
  match xs with
  | [] => []
  | x :: xs' => let acc' := ufunc acc x in acc' :: running acc' xs'
  end.

(** Along one row: the first element, then each element combined with the
    result before it. *)
Definition accumulate_row (xs : list float) : list float :=
  match xs with
  | [] => []
  | x :: xs' => x :: running x xs'
  end.

Definition accumulate (a : list (list float)) : list (list float) :=
  accumulate_row <$> a.

End np_minimum.

Section Plot.

Context {ax : Ax}.

(** The attribute [trial.objective_mean], which the library computes from the
    trial's data: a parameter. *)
Variable objective_mean : Trial.t GeneratorRun → float.

(** *** 6. Plot results *)

(** [np.array([[trial.objective_mean for trial in exp.trials.values()]])] *)
Definition objective_means (e : SimpleExperiment.t GeneratorRun) : list (list float) :=
  [ objective_mean <$> SimpleExperiment.trials e ].

(** The argument [y] of [optimization_trace_single_method]. *)
Definition best_objective_y (e : SimpleExperiment.t GeneratorRun) : list (list float) :=
  np_minimum.accumulate (objective_means e).

End Plot.

(** The series [y] of the "mean" trace in the recorded plot. *)
#[warnings="-inexact-float"]
Definition recorded_y : list float :=
  [ -1.4464451351576135; -1.4464451351576135; -1.4464451351576135;
    -1.4464451351576135; -1.4464451351576135; -1.4464451351576135;
    -1.9403433058127484; -1.9403433058127484; -2.1597865769351823;
    -2.1597865769351823; -2.4746580169327363; -2.4746580169327363;
    -2.5986761662290165; -2.5986761662290165; -2.8597258035968474;
    -2.8597258035968474; -2.9329403641978042; -2.9329403641978042;
    -3.218906368399941; -3.27472060147518 ]%float.

(** ** The plotting helpers injected into the notebook (JavaScript)

    Numbers are binary64 values.  An array is an object on the heap, reached
    through a reference; two names may hold the same reference. *)

Module js.

Abbreviation ref := positive.

(** The results of [Math.pow], [Math.sqrt] and [Math.log10] are left to the
    implementation by the language: parameters. *)
Class Math : Type := {
  Math_pow : float → float → float;
  Math_sqrt : float → float;
  Math_log10 : float → float
}.

(** What the helpers can reach: the arrays, and the three names they assign
    without declaring them, which makes them properties of the global
    object. *)
Record state : Type := {
  heap : gmap ref (list float);
  global_res : option ref;
  global_r_hat : option float;
  global_variance : option float
}.

Definition with_heap (h : gmap ref (list float)) (s : state) : state :=
  {| heap := h; global_res := global_res s;
     global_r_hat := global_r_hat s; global_variance := global_variance s |}.

(** An array literal or [slice]: a new object. *)
Definition alloc (xs : list float) (s : state) : ref * state :=
  let r := stdpp.base.fresh (dom (heap s)) in (r, with_heap (<[r := xs]> (heap s)) s).

(** [arr.slice()]; a [TypeError] when [arr] is no array. *)
Definition slice (arr : ref) (s : state) : outcome ref * state :=
  match heap s !! arr with
  | Some xs => let '(r, s') := alloc xs s in (Return r, s')
  | None => (Raise TypeError, s)
  end.

(** [arr.reverse()]: in place; it returns [arr]. *)
Definition reverse (arr : ref) (s : state) : outcome ref * state :=
  match heap s !! arr with
  | Some xs => (Return arr, with_heap (<[arr := rev xs]> (heap s)) s)
  | None => (Raise TypeError, s)
  end.

(** [arr.push(x)]. *)
Definition push (arr : ref) (x : float) (s : state) : outcome unit * state :=
  match heap s !! arr with
  | Some xs => (Return (), with_heap (<[arr := xs ++ [x]]> (heap s)) s)
  | None => (Raise TypeError, s)
  end.

Definition copy_and_reverse (arr : ref) (s : state) : outcome ref * state :=
  match slice arr s with
  | (Return copy, s1) =>
      match reverse copy s1 with
      | (Return _, s2) => (Return copy, s2)
      | (Raise e, s2) => (Raise e, s2)
      end
  | (Raise e, s1) => (Raise e, s1)
  end.

(** [Math.min] and [Math.max] of two numbers: a NaN on either side gives a
    NaN, and [-0] counts as smaller than [+0]. *)
Definition min2 (a b : float) : float :=
  if is_nan a || is_nan b then nan
  else if (a <? b)%float then a
  else if (b <? a)%float then b
  else if get_sign a then a else b.

Definition max2 (a b : float) : float :=
  if is_nan a || is_nan b then nan
  else if (a <? b)%float then b
  else if (b <? a)%float then a
  else if get_sign a then b else a.

(** [Math.min(...grid)] and [Math.max(...grid)]: with no argument they are
    [Infinity] and [-Infinity]. *)
Definition Math_min (grid : list float) : float := fold_left min2 grid infinity.
Definition Math_max (grid : list float) : float := fold_left max2 grid neg_infinity.

Definition axis_range `{Math} (grid : list float) (is_log : bool) : list float :=
  if is_log
  then [Math_log10 (Math_min grid); Math_log10 (Math_max grid)]
  else [Math_min grid; Math_max grid].

(** A value that is a number or [undefined], and its use as a number. *)
Definition to_number (v : option float) : float := default nan v.

(** [relativize(m_t, sem_t, m_c, sem_c)]: every use of an argument is
    arithmetic, where [undefined] counts as NaN.  The two results are
    assigned to the undeclared names [r_hat] and [variance], and returned
    in a new array. *)
Definition relativize `{Math} (m_t sem_t m_c sem_c : option float) (s : state)
    : ref * state :=
  let m_t := to_number m_t in
  let sem_t := to_number sem_t in
  let m_c := to_number m_c in
  let sem_c := to_number sem_c in
  let r_hat :=
    ((m_t - m_c) / abs m_c
     - Math_pow sem_c 2 * m_t / Math_pow (abs m_c) 3)%float in
  let variance :=
    ((Math_pow sem_t 2 + Math_pow (m_t / m_c * sem_c) 2)
     / Math_pow m_c 2)%float in
  alloc [r_hat; Math_sqrt variance]
    {| heap := heap s; global_res := global_res s;
       global_r_hat := Some r_hat; global_variance := Some variance |}.

(** The value of [rel]. *)
Inductive value : Type :=
  | Undefined
  | Boolean (b : bool)
  | Number (x : float)
  | String (str : string).

(** [rel === true] *)
Definition is_true (rel : value) : bool :=
  match rel with Boolean true => true | _ => false end.

(** The plot data of an arm, and [arm_data] with the fields the helper
    reads; a [status_quo_name] that is [null] is [None]. *)
Record arm : Type := { y : gmap string float; se : gmap string float }.

Record arm_data_t : Type := {
  in_sample : gmap string arm;
  status_quo_name : option string
}.

(** [arm_data['in_sample'][arm_data['status_quo_name']]]: as a property key
    [null] is the string "null"; the result is [undefined] when there is no
    such arm. *)
Definition status_quo (arm_data : arm_data_t) : option arm :=
  in_sample arm_data !! default "null" (status_quo_name arm_data).

(** The loop [for (let i = 0; i < f.length; i++)], from index [i] on, over
    the elements of [f] that remain. *)
Fixpoint relativize_loop `{Math} (rest : list float) (i : nat) (sd_elems : list float)
    (f_sq sd_sq : option float) (f_final sd_final : ref) (s : state)
    : outcome unit * state :=
  match rest with
  | [] => (Return (), s)
  | f_i :: rest' =>
      let '(res, s1) := relativize (Some f_i) (sd_elems !! i) f_sq sd_sq s in
      let s1 := {| heap := heap s1; global_res := Some res;
                   global_r_hat := global_r_hat s1;
                   global_variance := global_variance s1 |} in
      match heap s1 !! res with
      | Some [res0; res1] =>
          match push f_final (100 * res0)%float s1 with
          | (Return _, s2) =>
              match push sd_final (100 * res1)%float s2 with
              | (Return _, s3) =>
                  relativize_loop rest' (S i) sd_elems f_sq sd_sq f_final sd_final s3
              | (Raise e, s3) => (Raise e, s3)
              end
          | (Raise e, s2) => (Raise e, s2)
          end
      | _ => (Raise TypeError, s1)
      end
  end.

Definition relativize_data `{Math} (f sd : ref) (rel : value)
    (arm_data : arm_data_t) (metric : string) (s : state)
    : outcome (ref * ref) * state :=
  (* if relative, extract status quo & compute ratio *)
  let '(f_final, s1) := if is_true rel then alloc [] s else (f, s) in
  let '(sd_final, s2) := if is_true rel then alloc [] s1 else (sd, s1) in
  if is_true rel then
    match status_quo arm_data with
    | None => (Raise TypeError, s2)
    | Some sq =>
        let f_sq := y sq !! metric in
        let sd_sq := se sq !! metric in
        match heap s2 !! f, heap s2 !! sd with
        | Some f_elems, Some sd_elems =>
            match relativize_loop f_elems 0 sd_elems f_sq sd_sq f_final sd_final s2 with
            | (Return _, s3) => (Return (f_final, sd_final), s3)
            | (Raise e, s3) => (Raise e, s3)
            end
        | _, _ => (Raise TypeError, s2)
        end
    end
  else (Return (f_final, sd_final), s2).

End js.

(** ** More sample inputs *)

(** The experiment the optimization leaves with the counting library, and two
    assignments of objective means to its trials: the recorded series, and
    the same with a NaN at the trial of index 2. *)
Definition sample_experiment
    : SimpleExperiment.t (GeneratorRun (Ax := counting)) :=
  exp_object (optimization (ax := counting)
                (fresh (synthetic := stand_in) (ax := counting) 0)).2.

Definition sample_objective_mean (t : Trial.t (GeneratorRun (Ax := counting))) : float :=
  default 0%float (recorded_y !! Trial.index t).

Definition sample_objective_mean_nan (t : Trial.t (GeneratorRun (Ax := counting)))
    : float :=
  if bool_decide (Trial.index t = 2) then nan else sample_objective_mean t.

(** An implementation of the three [Math] functions left open. *)
Definition sample_math : js.Math :=
  {| js.Math_pow := λ x n, (if (n =? 2)%float then x * x else x * x * x)%float;
     js.Math_sqrt := PrimFloat.sqrt;
     js.Math_log10 := λ x, x |}.

(** Two arrays of different lengths on the heap, no global name assigned. *)
Definition sample_state : js.state :=
  {| js.heap := {[ 1%positive := [1.0; 2.0; 4.0]%float; 2%positive := [0.5]%float ]};
     js.global_res := None;
     js.global_r_hat := None;
     js.global_variance := None |}.

Definition sample_arm_data : js.arm_data_t :=
  {| js.in_sample :=
       {[ "status_quo" := {| js.y := {[ "hartmann6" := 2.0%float ]};
                             js.se := {[ "hartmann6" := 0.0%float ]} |} ]};
     js.status_quo_name := Some "status_quo" |}.

(** The same arms with no status quo named. *)
Definition sample_arm_data_null : js.arm_data_t :=
  {| js.in_sample := js.in_sample sample_arm_data;
     js.status_quo_name := None |}.

(** * Properties *)

(** ** Arithmetic of binary64 squares *)

Lemma binary_round_aux_sign prec emax m e l :
  binary_round_aux prec emax false m e l ≠ S754_zero true.
Proof.
  unfold binary_round_aux.
  destruct (shr_fexp _ _ _ _ _) as [mrs' e'].
  destruct (shr_fexp _ _ _ _ _) as [mrs'' e''].
  destruct (shr_m mrs''); try discriminate.
  destruct (_ <=? _)%Z; discriminate.
Qed.

(** A square is never the negative zero. *)
Lemma SF64mul_self_sign (s : spec_float) : SF64mul s s ≠ S754_zero true.
Proof.
  destruct s as [[]|[]| |[] m e]; try discriminate;
    apply binary_round_aux_sign.
Qed.

(** Hence starting the sum from zero does not change its first term. *)
Lemma zero_add_square (v : float) : (0 + v * v = v * v)%float.
Proof.
  apply Prim2SF_inj. rewrite add_spec, mul_spec.
  pose proof (SF64mul_self_sign (Prim2SF v)) as Hsign.
  change (Prim2SF 0) with (S754_zero false).
  destruct (SF64mul _ _) as [[]| | |]; try reflexivity. congruence.
Qed.

(** ** Reading the coordinates *)

Lemma param_names_eq : param_names = ["x0"; "x1"; "x2"; "x3"; "x4"; "x5"].
Proof. reflexivity. Qed.

Lemma vector_eq (p : dict) :
  vector p = [p !! "x0"; p !! "x1"; p !! "x2"; p !! "x3"; p !! "x4"; p !! "x5"].
Proof. reflexivity. Qed.

(** The comprehension leaves the dictionary as it found it. *)
Lemma read_vector (p : dict) :
  mapM (λ i, dict_get (fstring_x i)) (range 6) p = (Return (vector p), p).
Proof. reflexivity. Qed.

Lemma all_floats_Some (vs : list object) (xs : list float) :
  np.all_floats vs = Some xs ↔ vs = Some <$> xs.
Proof.
  unfold np.all_floats. revert xs.
  induction vs as [|[f|] vs IH]; intros xs; cbn.
  - split; [intros [= <-]; done | by destruct xs].
  - destruct (mapM id vs) as [ys|] eqn:E; cbn.
    + split.
      * intros [= <-]. cbn. f_equal. by apply IH.
      * destruct xs as [|x xs]; [done|]. intros [= -> Hvs].
        apply IH in Hvs. by simplify_eq.
    + split; [done|]. destruct xs as [|x xs]; [done|]. intros [= -> Hvs].
      apply IH in Hvs. done.
  - split; [done | by destruct xs].
Qed.

(** An array of dtype [object] built by [np.array] holds a [None], and
    squaring it raises. *)
Lemma each_square_None (vs : list object) :
  np.all_floats vs = None → np.each np.object_square vs = Raise TypeError.
Proof.
  unfold np.all_floats. induction vs as [|[f|] vs IH]; cbn; intros Hvs; try done.
  destruct (mapM id vs); [done|]. by rewrite IH.
Qed.

Lemma supplies_all_vector (p : dict) :
  supplies_all p ↔ ∃ xs, vector p = Some <$> xs.
Proof.
  unfold supplies_all, vector. induction param_names as [|k ks IH]; cbn.
  - split; [by exists [] | constructor].
  - rewrite Forall_cons, IH. split.
    + intros [[x Hx] [xs Hxs]]. exists (x :: xs). cbn. by rewrite Hx, Hxs.
    + intros [[|x xs] Hxs]; [done|]. injection Hxs as Hx Hxs. eauto.
Qed.

Lemma supplies_all_lookups (p : dict) :
  supplies_all p ↔
  ∃ x0 x1 x2 x3 x4 x5,
    p !! "x0" = Some x0 ∧ p !! "x1" = Some x1 ∧ p !! "x2" = Some x2 ∧
    p !! "x3" = Some x3 ∧ p !! "x4" = Some x4 ∧ p !! "x5" = Some x5.
Proof.
  unfold supplies_all. rewrite param_names_eq, !Forall_cons. unfold is_Some.
  split.
  - intros ([x0 ?] & [x1 ?] & [x2 ?] & [x3 ?] & [x4 ?] & [x5 ?] & _).
    by exists x0, x1, x2, x3, x4, x5.
  - intros (x0 & x1 & x2 & x3 & x4 & x5 & ? & ? & ? & ? & ? & ?).
    repeat split; eauto.
Qed.

(** ** The evaluation function *)

Section Evaluation.

Context {synthetic : synthetic_functions}.

(** On six floats the function returns, with both means computed from the
    [float64] array of the coordinates. *)
Lemma evaluation_float64 (p : dict) (w : option float) (xs : list float) :
  vector p = Some <$> xs →
  hartmann_evaluation_function p w =
    (Return (metrics_display (hartmann6 xs)
               (PrimFloat.sqrt
                  (fold_left PrimFloat.add ((λ v, v * v)%float <$> xs) 0%float))),
     p).
Proof.
  intros Hxs%all_floats_Some.
  unfold hartmann_evaluation_function, run, mbind, py_bind.
  rewrite read_vector. unfold np.array. rewrite Hxs. reflexivity.
Qed.

(** When a coordinate is missing the array is of dtype [object]; whatever
    the helper does with it, the square raises. *)
Lemma evaluation_object (p : dict) (w : option float) :
  np.all_floats (vector p) = None →
  ∃ e, hartmann_evaluation_function p w = (Raise e, p).
Proof.
  intros Hnone.
  unfold hartmann_evaluation_function, run, mbind, py_bind.
  rewrite read_vector. unfold np.array. rewrite Hnone.
  unfold lift, call_hartmann6, np.square.
  destruct (hartmann6_object _); [|by eexists].
  rewrite (each_square_None _ Hnone). by eexists.
Qed.

Lemma evaluation_six (p : dict) (w : option float) (x0 x1 x2 x3 x4 x5 : float) :
  p !! "x0" = Some x0 → p !! "x1" = Some x1 → p !! "x2" = Some x2 →
  p !! "x3" = Some x3 → p !! "x4" = Some x4 → p !! "x5" = Some x5 →
  hartmann_evaluation_function p w =
    (Return (metrics_display (hartmann6 [x0; x1; x2; x3; x4; x5])
               (PrimFloat.sqrt
                  (x0 * x0 + x1 * x1 + x2 * x2 + x3 * x3 + x4 * x4 + x5 * x5))),
     p).
Proof.
  intros H0 H1 H2 H3 H4 H5.
  rewrite (evaluation_float64 p w [x0; x1; x2; x3; x4; x5]).
  - cbn. by rewrite zero_add_square.
  - rewrite vector_eq, H0, H1, H2, H3, H4, H5. reflexivity.
Qed.

Lemma metrics_display_hartmann6 (h l : float) :
  metrics_display h l !! "hartmann6" = Some (h, 0.0%float).
Proof. reflexivity. Qed.

Lemma metrics_display_l2norm (h l : float) :
  metrics_display h l !! "l2norm" = Some (l, 0.0%float).
Proof. reflexivity. Qed.

Lemma metrics_display_dom (h l : float) :
  dom (metrics_display h l) = {[ "hartmann6"; "l2norm" ]}.
Proof. unfold metrics_display. rewrite !dom_insert_L. set_solver. Qed.

Lemma metrics_display_size (h l : float) : size (metrics_display h l) = 2.
Proof.
  unfold metrics_display.
  rewrite map_size_insert_None, map_size_insert_None, map_size_empty; done.
Qed.

(** The function always leaves the dictionary as it was. *)
Lemma evaluation_state (p : dict) (w : option float) :
  (hartmann_evaluation_function p w).2 = p.
Proof.
  destruct (np.all_floats (vector p)) as [xs|] eqn:Hxs.
  - apply all_floats_Some in Hxs.
    by rewrite (evaluation_float64 p w xs Hxs).
  - destruct (evaluation_object p w Hxs) as [e ->]. done.
Qed.

(** The outcome is a function of the six values read. *)
Lemma evaluation_vector (p1 p2 : dict) (w1 w2 : option float) :
  vector p1 = vector p2 →
  (hartmann_evaluation_function p1 w1).1 = (hartmann_evaluation_function p2 w2).1.
Proof.
  intros Hvec.
  unfold hartmann_evaluation_function, run, mbind, py_bind.
  rewrite !read_vector, Hvec. unfold lift.
  destruct (call_hartmann6 _); [|done].
  destruct (np.square _) as [sq|]; [|done].
  destruct (np.sum sq) as [sm|]; [|done].
  destruct (np.sqrt sm); done.
Qed.

(** C1: for every parameterization that supplies all six coordinates x0..x5,
    the evaluation function returns a dictionary with exactly the two keys
    "hartmann6" and "l2norm", each mapped to a pair (mean, standard error)
    whose standard error is 0.0. *)
Theorem evaluation_returns_two_metrics (p : dict) (w : option float) :
  supplies_all p →
  ∃ (r : metrics) (h l : float),
    hartmann_evaluation_function p w = (Return r, p) ∧
    dom r = {[ "hartmann6"; "l2norm" ]} ∧ size r = 2 ∧
    r !! "hartmann6" = Some (h, 0.0%float) ∧
    r !! "l2norm" = Some (l, 0.0%float).
Proof.
  intros [xs Hxs]%supplies_all_vector.
  eexists _, _, _. split; [exact (evaluation_float64 p w xs Hxs)|].
  split; [apply metrics_display_dom|].
  split; [apply metrics_display_size|].
  split; reflexivity.
Qed.

(** C2: for every parameterization that supplies all six coordinates, the mean
    under "l2norm" is the Euclidean norm sqrt(x0^2 + ... + x5^2) of the
    coordinate vector, in the binary64 arithmetic the code computes it in;
    in particular it is 0.0 when all six coordinates are 0. *)
Theorem l2norm_mean_is_euclidean_norm
    (p : dict) (w : option float) (x0 x1 x2 x3 x4 x5 : float) :
  p !! "x0" = Some x0 → p !! "x1" = Some x1 → p !! "x2" = Some x2 →
  p !! "x3" = Some x3 → p !! "x4" = Some x4 → p !! "x5" = Some x5 →
  ∃ r : metrics,
    hartmann_evaluation_function p w = (Return r, p) ∧
    r !! "l2norm" =
      Some (PrimFloat.sqrt
              (x0 * x0 + x1 * x1 + x2 * x2 + x3 * x3 + x4 * x4 + x5 * x5),
            0.0)%float ∧
    ([x0; x1; x2; x3; x4; x5] = replicate 6 0.0%float →
     r !! "l2norm" = Some (0.0, 0.0)%float).
Proof.
  intros H0 H1 H2 H3 H4 H5.
  eexists. split; [exact (evaluation_six p w _ _ _ _ _ _ H0 H1 H2 H3 H4 H5)|].
  split; [apply metrics_display_l2norm|].
  intros [= -> -> -> -> -> ->]. reflexivity.
Qed.

(** C3: for every parameterization that supplies all six coordinates, the mean
    under "hartmann6" is the value of the benchmark helper [hartmann6] at the
    vector (x0, ..., x5), the coordinates in the order of their indices. *)
Theorem hartmann6_mean_is_benchmark_value
    (p : dict) (w : option float) (x0 x1 x2 x3 x4 x5 : float) :
  p !! "x0" = Some x0 → p !! "x1" = Some x1 → p !! "x2" = Some x2 →
  p !! "x3" = Some x3 → p !! "x4" = Some x4 → p !! "x5" = Some x5 →
  ∃ r : metrics,
    hartmann_evaluation_function p w = (Return r, p) ∧
    r !! "hartmann6" = Some (hartmann6 [x0; x1; x2; x3; x4; x5], 0.0%float).
Proof.
  intros H0 H1 H2 H3 H4 H5.
  eexists. split; [exact (evaluation_six p w _ _ _ _ _ _ H0 H1 H2 H3 H4 H5)|].
  apply metrics_display_hartmann6.
Qed.

(** C4, amended: the evaluation function returns exactly on the parameter
    dictionaries that supply all six coordinates x0..x5; on every other
    dictionary [get] yields [None] for a missing key and the evaluation
    raises. *)
Theorem evaluation_returns_iff_supplied (p : dict) (w : option float) :
  ((∃ r, hartmann_evaluation_function p w = (Return r, p)) ↔ supplies_all p) ∧
  ((∃ e, hartmann_evaluation_function p w = (Raise e, p)) ↔ ¬ supplies_all p).
Proof.
  rewrite supplies_all_vector.
  destruct (np.all_floats (vector p)) as [xs|] eqn:Hxs.
  - apply all_floats_Some in Hxs.
    rewrite (evaluation_float64 p w xs Hxs). split; split.
    + eauto.
    + eauto.
    + by intros [e ?].
    + intros []. eauto.
  - destruct (evaluation_object p w Hxs) as [e ->]. split; split.
    + by intros [r ?].
    + intros [xs Hv%all_floats_Some]. congruence.
    + intros _ [xs Hv%all_floats_Some]. congruence.
    + eauto.
Qed.

(** C5: the weight is not used and the function has no effect: calls with
    any two weights (the default [None] among them) give the same outcome,
    the dictionary passed is left as it was, and a second call made after
    the first gives again the outcome of the first. *)
Theorem evaluation_ignores_weight (p : dict) (w1 w2 : option float) :
  hartmann_evaluation_function p w1 = hartmann_evaluation_function p w2 ∧
  (hartmann_evaluation_function p w1).2 = p ∧
  hartmann_evaluation_function (hartmann_evaluation_function p w1).2 w2
    = hartmann_evaluation_function p w1.
Proof.
  split; [reflexivity|]. split; [apply evaluation_state|].
  by rewrite evaluation_state.
Qed.

(** C9: the outcome depends only on the values at the keys x0..x5: two
    parameter dictionaries that agree on these keys, whatever other keys
    they hold, give equal outcomes. *)
Theorem evaluation_depends_on_coordinates_only
    (p1 p2 : dict) (w1 w2 : option float) :
  (∀ k, k ∈ param_names → p1 !! k = p2 !! k) →
  (hartmann_evaluation_function p1 w1).1 = (hartmann_evaluation_function p2 w2).1.
Proof.
  intros Hagree. apply evaluation_vector. unfold vector.
  apply list_fmap_ext. intros i k Hk. apply Hagree.
  by eapply list_elem_of_lookup_2.
Qed.

End Evaluation.

(** ** The search space *)

(** C6: the search space consists of exactly six range parameters, named x0
    through x5, each of floating-point type, bounded below by 0.0 and above
    by 1.0. *)
Theorem search_space_parameters :
  length (SearchSpace.parameters hartmann_search_space) = 6 ∧
  RangeParameter.name <$> SearchSpace.parameters hartmann_search_space
    = ["x0"; "x1"; "x2"; "x3"; "x4"; "x5"] ∧
  Forall (λ q, RangeParameter.parameter_type q = FLOAT ∧
               RangeParameter.lower q = 0.0%float ∧
               RangeParameter.upper q = 1.0%float)
         (SearchSpace.parameters hartmann_search_space).
Proof.
  split; [reflexivity|]. split; [reflexivity|].
  unfold hartmann_search_space; cbn [SearchSpace.parameters].
  apply Forall_fmap, Forall_forall. intros i _. by cbn.
Qed.

(** ** The experiment and the optimization loop *)

Section Optimization.

Context {synthetic : synthetic_functions} {ax : Ax}.

Lemma for_in_cons {A} (a : A) (l : list A) (body : A → nb unit) (s : session) :
  for_in (a :: l) body s = for_in l body (body a s).2.
Proof. cbn. unfold mbind, nb_bind. by destruct (body a s). Qed.

(** The body of the first loop, and what one run of it does. *)
#[local] Abbreviation sobol_body sobol :=
  (λ i : nat,
    generator_run ← gen sobol 1;
    exp_new_trial generator_run;;
    mret ()).

Lemma sobol_body_run (sobol : Model) (i : nat) (s : session) :
  ∃ (g : GeneratorRun) (w' : World),
    sobol_body sobol i s =
    ((), {| exp_object := with_runs (exp_object s) [g];
            world := w';
            calls := calls s ++ sobol_trials sobol (exp_object s) [g] |}).
Proof.
  unfold mbind, nb_bind, gen, exp_new_trial, library.
  destruct (ax_gen sobol 1 (world s)) as [g w']. exists g, w'.
  cbn. by rewrite <- app_assoc.
Qed.

Lemma sobol_trials_app (sobol : Model) (e : SimpleExperiment.t GeneratorRun)
    (runs runs' : list GeneratorRun) :
  sobol_trials sobol e (runs ++ runs') =
  sobol_trials sobol e runs ++ sobol_trials sobol (with_runs e runs) runs'.
Proof.
  revert e. induction runs as [|g runs IH]; intros e; [done|].
  cbn. by rewrite IH.
Qed.

Lemma with_runs_app (e : SimpleExperiment.t GeneratorRun)
    (runs runs' : list GeneratorRun) :
  with_runs e (runs ++ runs') = with_runs (with_runs e runs) runs'.
Proof. apply fold_left_app. Qed.

Lemma sobol_loop (sobol : Model) (n a : nat) (s : session) :
  ∃ (runs : list GeneratorRun) (w' : World),
    length runs = n ∧
    for_in (seq a n) (sobol_body sobol) s =
    ((), {| exp_object := with_runs (exp_object s) runs;
            world := w';
            calls := calls s ++ sobol_trials sobol (exp_object s) runs |}).
Proof.
  revert a s. induction n as [|n IH]; intros a s.
  - exists [], (world s). split; [done|]. cbn. rewrite app_nil_r. by destruct s.
  - cbn [seq]. rewrite for_in_cons.
    destruct (sobol_body_run sobol a s) as (g & w1 & ->).
    edestruct (IH (S a)) as (runs & w' & Hlen & ->).
    exists (g :: runs), w'. split; [by cbn; f_equal|].
    cbn [snd exp_object calls].
    by rewrite <- app_assoc, <- (sobol_trials_app _ _ [g]), <- (with_runs_app _ [g]).
Qed.

(** The body of the second loop, and what one run of it does. *)
#[local] Abbreviation gpei_body :=
  (λ i : nat,
    print ("Running GP+EI optimization trial " +:+ pretty (i + 1) +:+ "/15...");;
    experiment ← exp_now;
    data ← exp_eval;
    gpei ← Models.GPEI experiment data;
    generator_run ← gen gpei 1;
    batch ← exp_new_trial generator_run;
    mret ()).

Lemma gpei_body_run (i : nat) (s : session) :
  ∃ (step : Data * Model * GeneratorRun) (w' : World),
    gpei_body i s =
    ((), {| exp_object := with_runs (exp_object s) [step.2];
            world := w';
            calls := calls s ++ gpei_trials (exp_object s) i [step] |}).
Proof.
  unfold exp_eval, Models.GPEI, gen, exp_new_trial, library, print, exp_now.
  unfold mbind, nb_bind. cbn [exp_object world calls].
  destruct (ax_eval (exp_object s) (world s)) as [d w1].
  cbn [exp_object world calls].
  destruct (ax_GPEI (exp_object s) d w1) as [m w2].
  cbn [exp_object world calls].
  destruct (ax_gen m 1 w2) as [g w3].
  exists (d, m, g), w3.
  cbn [exp_object world calls gpei_trials with_runs fold_left snd
       SimpleExperiment.new_trial mret nb_ret].
  by rewrite <- !app_assoc.
Qed.

Lemma gpei_trials_app (e : SimpleExperiment.t GeneratorRun) (i : nat)
    (steps steps' : list (Data * Model * GeneratorRun)) :
  gpei_trials e i (steps ++ steps') =
  gpei_trials e i steps ++
  gpei_trials (with_runs e (snd <$> steps)) (length steps + i) steps'.
Proof.
  revert e i. induction steps as [|[[d m] g] steps IH]; intros e i; [done|].
  cbn [gpei_trials app length fmap list_fmap SimpleExperiment.new_trial].
  rewrite IH, (Nat.add_succ_r (length steps) i). reflexivity.
Qed.

Lemma gpei_loop (n a : nat) (s : session) :
  ∃ (steps : list (Data * Model * GeneratorRun)) (w' : World),
    length steps = n ∧
    for_in (seq a n) gpei_body s =
    ((), {| exp_object := with_runs (exp_object s) (snd <$> steps);
            world := w';
            calls := calls s ++ gpei_trials (exp_object s) a steps |}).
Proof.
  revert a s. induction n as [|n IH]; intros a s.
  - exists [], (world s). split; [done|]. cbn. rewrite app_nil_r. by destruct s.
  - cbn [seq]. rewrite for_in_cons.
    destruct (gpei_body_run a s) as (step & w1 & ->).
    edestruct (IH (S a)) as (steps & w' & Hlen & ->).
    exists (step :: steps), w'. split; [by cbn; f_equal|].
    cbn [snd exp_object calls].
    rewrite <- app_assoc, <- (with_runs_app _ [step.2]).
    change (S a) with (length [step] + a).
    by rewrite <- (gpei_trials_app _ _ [step]).
Qed.

Lemma with_runs_generator_runs (e : SimpleExperiment.t GeneratorRun)
    (runs : list GeneratorRun) :
  Trial.generator_run <$> SimpleExperiment.trials (with_runs e runs) =
  (Trial.generator_run <$> SimpleExperiment.trials e) ++ runs.
Proof.
  revert e. induction runs as [|g runs IH]; intros e.
  - by rewrite app_nil_r.
  - change (with_runs e (g :: runs))
      with (with_runs (SimpleExperiment.new_trial e g).2 runs).
    rewrite IH. cbn. by rewrite fmap_app, <- app_assoc.
Qed.

Lemma with_runs_indexes (e : SimpleExperiment.t GeneratorRun)
    (runs : list GeneratorRun) :
  Trial.index <$> SimpleExperiment.trials (with_runs e runs) =
  (Trial.index <$> SimpleExperiment.trials e) ++
  seq (length (SimpleExperiment.trials e)) (length runs).
Proof.
  revert e. induction runs as [|g runs IH]; intros e.
  - by rewrite app_nil_r.
  - change (with_runs e (g :: runs))
      with (with_runs (SimpleExperiment.new_trial e g).2 runs).
    rewrite IH. cbn. rewrite fmap_app, <- app_assoc, length_app. cbn.
    by rewrite Nat.add_1_r.
Qed.

(** C7: the experiment is configured with the search space built before it,
    the evaluation function, the objective name "hartmann6", the
    minimize flag set, and a list of exactly one outcome constraint: the
    metric named "l2norm", compared by LEQ with the bound 1.25, not
    relative. *)
Theorem experiment_configuration :
  SimpleExperiment.search_space exp = hartmann_search_space ∧
  SimpleExperiment.evaluation_function exp =
    hartmann_evaluation_function ∧
  SimpleExperiment.objective_name exp = "hartmann6" ∧
  SimpleExperiment.minimize exp = true ∧
  ∃ c : OutcomeConstraint.t,
    SimpleExperiment.outcome_constraints exp = [c] ∧
    L2NormMetric.name (OutcomeConstraint.metric c) = "l2norm" ∧
    OutcomeConstraint.op c = LEQ ∧
    OutcomeConstraint.bound c = 1.25%float ∧
    OutcomeConstraint.relative c = false.
Proof. repeat split. eexists. repeat split. Qed.

(** C10: the metric of the experiment's outcome constraint is an
    [L2NormMetric] named "l2norm" over the parameter names x0..x5 with
    noise_sd = 0.2, while the evaluation function of the same experiment
    reports, under that metric's name, a standard error of 0.0: the noise
    level declared on the metric is not the standard error returned. *)
Theorem constraint_metric_noise (p : dict) (w : option float) :
  supplies_all p →
  ∃ (c : OutcomeConstraint.t) (r : metrics) (l : float),
    SimpleExperiment.outcome_constraints exp = [c] ∧
    OutcomeConstraint.metric c =
      {| L2NormMetric.name := "l2norm";
         L2NormMetric.param_names := ["x0"; "x1"; "x2"; "x3"; "x4"; "x5"];
         L2NormMetric.noise_sd := 0x1.999999999999ap-3 |} ∧
    SimpleExperiment.evaluation_function exp p w = (Return r, p) ∧
    r !! L2NormMetric.name (OutcomeConstraint.metric c) = Some (l, 0.0%float) ∧
    L2NormMetric.noise_sd (OutcomeConstraint.metric c) ≠ 0.0%float.
Proof.
  intros [xs Hxs]%supplies_all_vector.
  eexists _, _, _. split; [reflexivity|]. split; [reflexivity|].
  split; [exact (evaluation_float64 p w xs Hxs)|].
  split; [apply metrics_display_l2norm|].
  cbn. intros Hsd. apply (f_equal (λ x, PrimFloat.eqb x 0)) in Hsd.
  vm_compute in Hsd. discriminate.
Qed.

(** The run of the optimization, whatever the library answers. *)
Lemma optimization_run (w : World) :
  ∃ (sobol : Model) (sobol_runs : list GeneratorRun)
    (gpei_steps : list (Data * Model * GeneratorRun)) (w' : World),
    length sobol_runs = 5 ∧ length gpei_steps = 15 ∧
    optimization (fresh w) =
    ((), {| exp_object := with_runs exp (sobol_runs ++ gpei_steps.*2);
            world := w';
            calls :=
              CallPrint "Running Sobol initialization trials..."
                :: CallSOBOL hartmann_search_space sobol
                :: sobol_trials sobol exp sobol_runs
                ++ gpei_trials (with_runs exp sobol_runs) 0 gpei_steps
                ++ [CallPrint "Done!"] |}).
Proof.
  unfold optimization, fresh, range.
  unfold mbind at 1, nb_bind at 1, print at 1.
  unfold mbind at 1, nb_bind at 1, exp_now at 1.
  unfold mbind at 1, nb_bind at 1, Models.SOBOL at 1, library at 1.
  cbn [exp_object world calls SimpleExperiment.search_space exp app].
  destruct (ax_SOBOL hartmann_search_space w) as [sobol w1].
  unfold mbind at 1, nb_bind at 1.
  destruct (sobol_loop sobol 5 0
              {| exp_object := exp; world := w1;
                 calls := [CallPrint "Running Sobol initialization trials...";
                           CallSOBOL hartmann_search_space sobol] |})
    as (sobol_runs & w2 & Hsobol & ->).
  unfold mbind at 1, nb_bind at 1.
  edestruct (gpei_loop 15 0) as (gpei_steps & w3 & Hgpei & ->).
  exists sobol, sobol_runs, gpei_steps, w3.
  split; [done|]. split; [done|].
  unfold print. cbn [snd exp_object world calls app].
  by rewrite <- with_runs_app, <- app_assoc.
Qed.

(** C8: the trials come from two loops of fixed length, run one after the
    other.  Whatever the library answers, the optimization makes exactly
    the calls of five Sobol trials, all on the one Sobol model, followed by
    the calls of fifteen GP+EI trials, each on a model built anew from the
    experiment and the data it has at that point; every trial holds the run
    of the [gen(1)] call just before it, and the experiment ends with
    twenty trials, the five Sobol ones first. *)
Theorem optimization_trials (w : World) :
  ∃ (sobol : Model) (sobol_runs : list GeneratorRun)
    (gpei_steps : list (Data * Model * GeneratorRun)),
    let final := (optimization (fresh w)).2 in
    let trials := SimpleExperiment.trials (exp_object final) in
    length sobol_runs = 5 ∧ length gpei_steps = 15 ∧ length trials = 20 ∧
    Trial.generator_run <$> trials = sobol_runs ++ gpei_steps.*2 ∧
    Trial.index <$> trials = seq 0 20 ∧
    calls final =
      CallPrint "Running Sobol initialization trials..."
        :: CallSOBOL hartmann_search_space sobol
        :: sobol_trials sobol exp sobol_runs
        ++ gpei_trials (with_runs exp sobol_runs) 0 gpei_steps
        ++ [CallPrint "Done!"].
Proof.
  destruct (optimization_run w)
    as (sobol & sobol_runs & gpei_steps & w' & Hsobol & Hgpei & ->).
  exists sobol, sobol_runs, gpei_steps. cbn [snd exp_object calls].
  assert (Hruns : Trial.generator_run <$>
            SimpleExperiment.trials (with_runs exp (sobol_runs ++ gpei_steps.*2))
            = sobol_runs ++ gpei_steps.*2)
    by apply with_runs_generator_runs.
  split; [done|]. split; [done|]. split; [|split; [done|split; [|done]]].
  - apply (f_equal length) in Hruns.
    rewrite length_fmap, length_app, length_fmap in Hruns. lia.
  - rewrite with_runs_indexes, length_app, length_fmap, Hsobol, Hgpei.
    reflexivity.
Qed.

End Optimization.

(** ** The statements at the sample inputs *)

Lemma sample_supplies_all : supplies_all sample.
Proof. apply supplies_all_lookups. by repeat eexists. Qed.

Example evaluation_sample :
  hartmann_evaluation_function (synthetic := stand_in) sample None =
  (Return (metrics_display (-2.625) 1.375), sample).
Proof. vm_compute. reflexivity. Qed.

Example evaluation_3_4 :
  (hartmann_evaluation_function (synthetic := stand_in)
     (list_to_map [("x0", 3.0); ("x1", 4.0); ("x2", 0.0);
                   ("x3", 0.0); ("x4", 0.0); ("x5", 0.0)]%float) None).1 =
  Return (metrics_display (-7.0) 5.0).
Proof. vm_compute. reflexivity. Qed.

Example evaluation_empty :
  hartmann_evaluation_function (synthetic := stand_in) ∅ None
    = (Raise TypeError, ∅).
Proof. vm_compute. reflexivity. Qed.

(** With the counting library: 88 calls in all; the five Sobol runs first;
    the model of the GP+EI trial with index [i] was built from the data of
    the [i] trials before it. *)
Example optimization_counting :
  let final := (optimization (ax := counting)
                  (fresh (synthetic := stand_in) (ax := counting) 0)).2 in
  length (calls final) = 88 ∧
  Trial.generator_run <$> SimpleExperiment.trials (exp_object final) =
    ((λ i, (None, i)) <$> seq 0 5) ++ ((λ i, (Some i, i)) <$> seq 5 15).
Proof. vm_compute. split; reflexivity. Qed.

Lemma evaluation_returns_two_metrics_witness :
  supplies_all sample ∧
  ∃ (r : metrics) (h l : float),
    hartmann_evaluation_function (synthetic := stand_in) sample None
      = (Return r, sample) ∧
    dom r = {[ "hartmann6"; "l2norm" ]} ∧ size r = 2 ∧
    r !! "hartmann6" = Some (h, 0.0%float) ∧
    r !! "l2norm" = Some (l, 0.0%float).
Proof.
  split; [exact sample_supplies_all|].
  exact (evaluation_returns_two_metrics (synthetic := stand_in) sample None
           sample_supplies_all).
Defined.

Lemma l2norm_mean_is_euclidean_norm_witness :
  ∃ r : metrics,
    hartmann_evaluation_function (synthetic := stand_in) origin None
      = (Return r, origin) ∧
    r !! "l2norm" = Some (0.0, 0.0)%float.
Proof.
  destruct (l2norm_mean_is_euclidean_norm (synthetic := stand_in) origin None
              0.0 0.0 0.0 0.0 0.0 0.0
              eq_refl eq_refl eq_refl eq_refl eq_refl eq_refl)%float
    as (r & Hr & _ & Hzero).
  exists r. split; [exact Hr | exact (Hzero eq_refl)].
Defined.

Lemma hartmann6_mean_is_benchmark_value_witness :
  ∃ r : metrics,
    hartmann_evaluation_function (synthetic := stand_in) sample None
      = (Return r, sample) ∧
    r !! "hartmann6" =
      Some (hartmann6 (synthetic_functions := stand_in)
              [0.5; 0.25; 0.75; 0.0; 1.0; 0.125], 0.0)%float.
Proof.
  exact (hartmann6_mean_is_benchmark_value (synthetic := stand_in) sample None
           _ _ _ _ _ _ eq_refl eq_refl eq_refl eq_refl eq_refl eq_refl).
Defined.

(** C4 as stated fails: with the key x5 missing, no helper and no weight make
    the function return. *)
Lemma evaluation_raises_without_x5 :
  ¬ ∃ (synthetic : synthetic_functions)
      (w : option float) (r : metrics) (d : dict),
      hartmann_evaluation_function sample_without_x5 w = (Return r, d).
Proof.
  intros (sf & w & r & d & Hret).
  destruct (evaluation_object (synthetic := sf) sample_without_x5 w) as [e Hraise];
    [reflexivity | congruence].
Qed.

Lemma sample_extra_agrees (k : string) :
  k ∈ param_names → sample !! k = sample_extra !! k.
Proof.
  rewrite param_names_eq, !elem_of_cons, elem_of_nil.
  intros [->|[->|[->|[->|[->|[->|[]]]]]]]; reflexivity.
Qed.

Lemma evaluation_depends_on_coordinates_only_witness :
  (hartmann_evaluation_function (synthetic := stand_in) sample None).1 =
  (hartmann_evaluation_function (synthetic := stand_in) sample_extra
     (Some 2.0%float)).1.
Proof.
  exact (evaluation_depends_on_coordinates_only (synthetic := stand_in)
           sample sample_extra None (Some 2.0%float) sample_extra_agrees).
Defined.

Lemma constraint_metric_noise_witness :
  ∃ (c : OutcomeConstraint.t) (r : metrics) (l : float),
    SimpleExperiment.outcome_constraints (exp (synthetic := stand_in) (ax := counting))
      = [c] ∧
    OutcomeConstraint.metric c =
      {| L2NormMetric.name := "l2norm";
         L2NormMetric.param_names := ["x0"; "x1"; "x2"; "x3"; "x4"; "x5"];
         L2NormMetric.noise_sd := 0x1.999999999999ap-3 |} ∧
    SimpleExperiment.evaluation_function (exp (synthetic := stand_in) (ax := counting))
      sample None = (Return r, sample) ∧
    r !! L2NormMetric.name (OutcomeConstraint.metric c) = Some (l, 0.0%float) ∧
    L2NormMetric.noise_sd (OutcomeConstraint.metric c) ≠ 0.0%float.
Proof.
  exact (constraint_metric_noise (synthetic := stand_in) (ax := counting) sample None
           sample_supplies_all).
Defined.

(** * The rest of the notebook *)

(** ** Order of binary64 values *)

Lemma SFcompare_refl (s : spec_float) :
  s ≠ S754_nan → SFcompare s s = Some Eq.
Proof.
  destruct s as [[]|[]| |[] m e]; try done; intros _; cbn;
    rewrite Z.compare_refl;
    change (Pos.compare_cont Eq m m) with (m ?= m)%positive;
    by rewrite Pos.compare_refl.
Qed.

Lemma SFcompare_antisym (s t : spec_float) :
  SFcompare t s = CompOpp <$> SFcompare s t.
Proof.
  destruct s as [[]|[]| |[] m e], t as [[]|[]| |[] m' e']; try done; cbn;
    rewrite (Z.compare_antisym e e');
    change (Pos.compare_cont Eq ?a ?b) with (a ?= b)%positive;
    rewrite (Pos.compare_antisym m m');
    destruct (e ?= e')%Z; try done; by destruct (m ?= m')%positive.
Qed.

Lemma SFleb_trans (s t u : spec_float) :
  SFleb s t = true → SFleb t u = true → SFleb s u = true.
Proof.
  unfold SFleb.
  destruct s as [[]|[]| |[] m1 e1], t as [[]|[]| |[] m2 e2],
    u as [[]|[]| |[] m3 e3]; try done; cbn;
    change (Pos.compare_cont Eq ?a ?b) with (a ?= b)%positive;
    destruct (Z.compare_spec e1 e2), (Z.compare_spec e2 e3),
      (Z.compare_spec e1 e3); try done; try lia;
    destruct (Pos.compare_spec m1 m2), (Pos.compare_spec m2 m3),
      (Pos.compare_spec m1 m3); try done; try lia.
Qed.

Lemma is_nan_spec (x : float) : is_nan x = true ↔ Prim2SF x = S754_nan.
Proof.
  unfold is_nan. rewrite FloatAxioms.eqb_spec. unfold SFeqb. split.
  - intros Hx. destruct (Prim2SF x) as [b|b| |b m e] eqn:Hs; [| |done|];
      by rewrite SFcompare_refl in Hx.
  - by intros ->.
Qed.

Lemma is_nan_eq (x : float) : is_nan x = true → x = nan.
Proof. intros Hx%is_nan_spec. by apply Prim2SF_inj. Qed.

Lemma is_nan_false (x : float) : is_nan x = false ↔ Prim2SF x ≠ S754_nan.
Proof. rewrite <- is_nan_spec. by destruct (is_nan x). Qed.

Lemma float_leb_refl (x : float) : is_nan x = false → (x <=? x)%float = true.
Proof.
  intros Hx%is_nan_false. rewrite leb_spec. unfold SFleb.
  by rewrite SFcompare_refl.
Qed.

Lemma float_leb_total (x y : float) :
  is_nan x = false → is_nan y = false →
  (x <=? y)%float = false → (y <=? x)%float = true.
Proof.
  intros Hx%is_nan_false Hy%is_nan_false. rewrite !leb_spec. unfold SFleb.
  rewrite (SFcompare_antisym (Prim2SF x) (Prim2SF y)).
  destruct (SFcompare (Prim2SF x) (Prim2SF y)) as [[]|] eqn:Hc; try done.
  by destruct (Prim2SF x) as [| | |], (Prim2SF y) as [| | |].
Qed.

Lemma float_leb_trans (x y z : float) :
  (x <=? y)%float = true → (y <=? z)%float = true → (x <=? z)%float = true.
Proof. rewrite !leb_spec. apply SFleb_trans. Qed.

Lemma float_leb_not_nan (x y : float) :
  (x <=? y)%float = true → is_nan x = false ∧ is_nan y = false.
Proof.
  rewrite leb_spec, !is_nan_false. unfold SFleb.
  by destruct (Prim2SF x) as [| | |], (Prim2SF y) as [| | |].
Qed.

(** ** The elementwise minimum and its accumulation *)

Lemma ufunc_nan_l (a b : float) : is_nan a = true → np_minimum.ufunc a b = a.
Proof. unfold np_minimum.ufunc. intros ->. by rewrite orb_true_r. Qed.

Lemma ufunc_nan_r (a b : float) :
  is_nan a = false → is_nan b = true → np_minimum.ufunc a b = b.
Proof.
  unfold np_minimum.ufunc. intros -> Hb.
  destruct (a <=? b)%float eqn:Hab; [|done].
  apply float_leb_not_nan in Hab as [_ Hb']. congruence.
Qed.

Lemma ufunc_cases (a b : float) :
  is_nan a = false → is_nan b = false →
  (np_minimum.ufunc a b = a ∨ np_minimum.ufunc a b = b) ∧
  (np_minimum.ufunc a b <=? a)%float = true ∧
  (np_minimum.ufunc a b <=? b)%float = true.
Proof.
  unfold np_minimum.ufunc. intros Ha Hb. rewrite Ha, orb_false_r.
  destruct (a <=? b)%float eqn:Hab.
  - auto using float_leb_refl.
  - auto using float_leb_refl, float_leb_total.
Qed.

Lemma ufunc_idempotent (a b : float) :
  np_minimum.ufunc a (np_minimum.ufunc a b) = np_minimum.ufunc a b.
Proof.
  unfold np_minimum.ufunc.
  destruct ((a <=? b)%float || is_nan a) eqn:Hab; [|by rewrite Hab].
  by destruct ((a <=? a)%float || is_nan a).
Qed.

Lemma running_length (acc : float) (xs : list float) :
  length (np_minimum.running acc xs) = length xs.
Proof. revert acc. induction xs as [|x xs IH]; intros acc; cbn; by f_equal. Qed.

Lemma accumulate_row_length (xs : list float) :
  length (np_minimum.accumulate_row xs) = length xs.
Proof. destruct xs; cbn; by rewrite ?running_length. Qed.

(** Without NaN, each result is one of the values seen so far (the start
    included) and is not above any of them. *)
Lemma running_minimum (acc : float) (xs : list float) (j : nat) (y : float) :
  is_nan acc = false → Forall (λ x, is_nan x = false) xs →
  np_minimum.running acc xs !! j = Some y →
  (y = acc ∨ ∃ i, i ≤ j ∧ xs !! i = Some y) ∧
  (y <=? acc)%float = true ∧
  (∀ i x, i ≤ j → xs !! i = Some x → (y <=? x)%float = true).
Proof.
  revert acc j. induction xs as [|x xs IH]; intros acc j Hacc Hxs Hy; [done|].
  apply Forall_cons in Hxs as [Hx Hxs].
  destruct (ufunc_cases acc x Hacc Hx) as (Hsel & Hle_acc & Hle_x).
  assert (Hnan : is_nan (np_minimum.ufunc acc x) = false)
    by (by destruct Hsel as [-> | ->]).
  cbn in Hy. destruct j as [|j].
  - injection Hy as <-. split; [|split; [done|]].
    + destruct Hsel as [-> | Hsel]; [by left|]. right. exists 0. by rewrite Hsel.
    + intros [|i] x' Hi Hx'; [|lia]. by injection Hx' as <-.
  - cbn in Hy. destruct (IH _ _ Hnan Hxs Hy) as (Hmem & Hle & Hall).
    split; [|split].
    + destruct Hmem as [-> | (i & Hi & Hmem)].
      * destruct Hsel as [-> | Hsel]; [by left|]. right. exists 0.
        split; [lia|]. by rewrite Hsel.
      * right. exists (S i). split; [lia | done].
    + by eapply float_leb_trans.
    + intros [|i] x' Hi Hx'.
      * injection Hx' as <-. by eapply float_leb_trans.
      * apply (Hall i); [lia | done].
Qed.

(** A NaN, once reached, stays. *)
Lemma running_nan_acc (acc : float) (xs : list float) (j : nat) (y : float) :
  is_nan acc = true → np_minimum.running acc xs !! j = Some y → y = acc.
Proof.
  revert j. induction xs as [|x xs IH]; intros j Hacc Hy; [done|].
  cbn in Hy. rewrite (ufunc_nan_l acc x Hacc) in Hy.
  destruct j as [|j]; [by injection Hy | by apply (IH j)].
Qed.

Lemma running_nan (acc : float) (xs : list float) (i j : nat) (x y : float) :
  xs !! i = Some x → is_nan x = true → i ≤ j →
  np_minimum.running acc xs !! j = Some y → is_nan y = true.
Proof.
  revert acc i j. induction xs as [|x0 xs IH]; intros acc i j Hx Hnan Hij Hy;
    [done|].
  cbn in Hy. destruct i as [|i].
  - injection Hx as ->.
    assert (Hu : is_nan (np_minimum.ufunc acc x) = true).
    { destruct (is_nan acc) eqn:Hacc.
      - by rewrite ufunc_nan_l.
      - by rewrite ufunc_nan_r. }
    destruct j as [|j]; [by injection Hy as <-|].
    cbn in Hy. by rewrite (running_nan_acc _ _ _ _ Hu Hy).
  - destruct j as [|j]; [lia|]. cbn in Hx, Hy.
    apply (IH _ i j Hx Hnan ltac:(lia) Hy).
Qed.

Lemma running_idempotent (acc : float) (xs : list float) :
  np_minimum.running acc (np_minimum.running acc xs) = np_minimum.running acc xs.
Proof.
  revert acc. induction xs as [|x xs IH]; intros acc; [done|].
  cbn. rewrite ufunc_idempotent. f_equal. apply IH.
Qed.

(** ** What the optimization prints, and the trials it leaves *)

Section Inspect.

Context {synthetic : synthetic_functions} {ax : Ax}.

Lemma stdout_app (cs cs' : list call) : stdout (cs ++ cs') = stdout cs ++ stdout cs'.
Proof. apply omap_app. Qed.

Lemma stdout_sobol_trials (sobol : Model) (e : SimpleExperiment.t GeneratorRun)
    (runs : list GeneratorRun) :
  stdout (sobol_trials sobol e runs) = [].
Proof. revert e. induction runs as [|g runs IH]; intros e; [done|]. apply IH. Qed.

Lemma stdout_gpei_trials (e : SimpleExperiment.t GeneratorRun) (i : nat)
    (steps : list (Data * Model * GeneratorRun)) :
  stdout (gpei_trials e i steps) =
  (λ k, "Running GP+EI optimization trial " +:+ pretty (k + 1) +:+ "/15...")
    <$> seq i (length steps).
Proof.
  revert e i. induction steps as [|[[d m] g] steps IH]; intros e i; [done|].
  cbn [gpei_trials SimpleExperiment.new_trial length seq fmap list_fmap].
  unfold stdout in *. cbn [omap list_omap]. by rewrite IH.
Qed.

(** X1: whatever the library answers, the optimization prints exactly the
    seventeen lines recorded in the notebook: the Sobol line, the lines
    "Running GP+EI optimization trial k/15..." for k = 1..15 in order, and
    "Done!". *)
Theorem optimization_stdout (w : World) :
  stdout (calls (optimization (fresh w)).2) = recorded_stdout.
Proof.
  destruct (optimization_run w)
    as (sobol & sobol_runs & gpei_steps & w' & Hsobol & Hgpei & ->).
  cbn [snd calls]. unfold stdout at 1. cbn [omap list_omap].
  fold (stdout (sobol_trials sobol exp sobol_runs
                ++ gpei_trials (with_runs exp sobol_runs) 0 gpei_steps
                ++ [CallPrint "Done!"])).
  rewrite !stdout_app, stdout_sobol_trials, stdout_gpei_trials, Hgpei.
  reflexivity.
Qed.

(** A parameterization that gives a value to every parameter of the search
    space supplies the six coordinates the evaluation function reads. *)
Lemma search_space_names :
  RangeParameter.name <$> SearchSpace.parameters hartmann_search_space = param_names.
Proof. reflexivity. Qed.

(** X2: the cells fit together: on every parameterization that gives a value
    to each parameter of the experiment's search space, the experiment's
    evaluation function returns, and what it returns has an entry for the
    experiment's objective name and for the metric of each of its outcome
    constraints. *)
Theorem search_space_parameterization_evaluates (p : dict) (w : option float) :
  (∀ q, q ∈ SearchSpace.parameters (SimpleExperiment.search_space exp) →
        is_Some (p !! RangeParameter.name q)) →
  ∃ r : metrics,
    SimpleExperiment.evaluation_function exp p w = (Return r, p) ∧
    is_Some (r !! SimpleExperiment.objective_name exp) ∧
    Forall (λ c, is_Some (r !! L2NormMetric.name (OutcomeConstraint.metric c)))
           (SimpleExperiment.outcome_constraints exp).
Proof.
  intros Hp.
  assert (Hall : supplies_all p).
  { unfold supplies_all. rewrite <- search_space_names.
    apply Forall_fmap, Forall_forall. intros q Hq. by apply Hp. }
  apply supplies_all_vector in Hall as [xs Hxs].
  eexists. split; [exact (evaluation_float64 p w xs Hxs)|].
  split; [by eexists|]. repeat constructor. by eexists.
Qed.

Lemma find_index_seq (l : list (Trial.t GeneratorRun)) (a i : nat) :
  Trial.index <$> l = seq a (length l) →
  find (λ t, bool_decide (Trial.index t = a + i)) l = l !! i.
Proof.
  revert a i. induction l as [|t l IH]; intros a i Hl; [done|].
  cbn in Hl. injection Hl as Ht Hl. cbn [find].
  destruct i as [|i].
  - rewrite Nat.add_0_r, bool_decide_eq_true_2; done.
  - rewrite bool_decide_eq_false_2 by lia.
    cbn. replace (a + S i) with (S a + i) by lia. by apply IH.
Qed.

(** X3: after the optimization, whatever the library answered, the lookup
    [exp.trials[i]] finds the trial at position [i] and succeeds exactly for
    i < 20, so the lookup [exp.trials[1]] of the next cell cannot fail; on
    the experiment as constructed, before the optimization, every such
    lookup is a [KeyError]. *)
Theorem trials_getitem_after_optimization (w : World) (i : nat) :
  let e := exp_object (optimization (fresh w)).2 in
  trials_getitem e i = SimpleExperiment.trials e !! i ∧
  (is_Some (trials_getitem e i) ↔ i < 20) ∧
  trials_getitem exp i = None.
Proof.
  destruct (optimization_run w)
    as (sobol & sobol_runs & gpei_steps & w' & Hsobol & Hgpei & ->).
  cbn [snd exp_object].
  set (e := with_runs exp (sobol_runs ++ gpei_steps.*2)).
  assert (Hidx : Trial.index <$> SimpleExperiment.trials e = seq 0 20).
  { unfold e. rewrite with_runs_indexes, length_app, length_fmap, Hsobol, Hgpei.
    reflexivity. }
  assert (Hlen : length (SimpleExperiment.trials e) = 20).
  { apply (f_equal length) in Hidx. by rewrite length_fmap in Hidx. }
  assert (Hget : trials_getitem e i = SimpleExperiment.trials e !! i).
  { apply (find_index_seq _ 0 i). by rewrite Hlen. }
  split; [exact Hget|]. split; [|done].
  rewrite Hget, lookup_lt_is_Some, Hlen. done.
Qed.

End Inspect.

(** ** The best-objective trace *)

Section Trace.

Context {synthetic : synthetic_functions} {ax : Ax}.
Variable objective_mean : Trial.t GeneratorRun → float.

(** X4: after the optimization, whatever the library answered, the array
    passed to the plot has one row of twenty entries, one per trial, and its
    first entry is the objective mean of the first trial. *)
Theorem best_objective_shape (w : World) :
  let e := exp_object (optimization (fresh w)).2 in
  ∃ row : list float,
    best_objective_y objective_mean e = [row] ∧ length row = 20 ∧
    row !! 0 = objective_mean <$> SimpleExperiment.trials e !! 0.
Proof.
  destruct (optimization_run w)
    as (sobol & sobol_runs & gpei_steps & w' & Hsobol & Hgpei & ->).
  cbn [snd exp_object].
  set (e := with_runs exp (sobol_runs ++ gpei_steps.*2)).
  assert (Hidx : Trial.index <$> SimpleExperiment.trials e = seq 0 20).
  { unfold e. rewrite with_runs_indexes, length_app, length_fmap, Hsobol, Hgpei.
    reflexivity. }
  assert (Hlen : length (SimpleExperiment.trials e) = 20).
  { apply (f_equal length) in Hidx. by rewrite length_fmap in Hidx. }
  eexists. split; [reflexivity|]. split.
  - by rewrite accumulate_row_length, length_fmap.
  - destruct (SimpleExperiment.trials e); done.
Qed.

(** X5: when no objective mean is NaN, the trace is the best objective so
    far: its entry at position j is the objective mean of one of the trials
    0..j, it is not above the objective mean of any of them, and the trace
    never goes up. *)
Theorem best_objective_running_minimum (e : SimpleExperiment.t GeneratorRun) :
  Forall (λ t, is_nan (objective_mean t) = false) (SimpleExperiment.trials e) →
  ∃ row : list float,
    best_objective_y objective_mean e = [row] ∧
    length row = length (SimpleExperiment.trials e) ∧
    ∀ (j : nat) (y : float), row !! j = Some y →
      (∃ i t, i ≤ j ∧ SimpleExperiment.trials e !! i = Some t ∧
              objective_mean t = y) ∧
      (∀ i t, i ≤ j → SimpleExperiment.trials e !! i = Some t →
              (y <=? objective_mean t)%float = true) ∧
      (∀ y', row !! S j = Some y' → (y' <=? y)%float = true).
Proof.
  intros Hnan. eexists. split; [reflexivity|].
  split; [by rewrite accumulate_row_length, length_fmap|].
  assert (Hmeans : Forall (λ x, is_nan x = false)
                     (objective_mean <$> SimpleExperiment.trials e))
    by by apply Forall_fmap.
  assert (Hchar : ∀ j y,
    np_minimum.accumulate_row (objective_mean <$> SimpleExperiment.trials e) !! j
      = Some y →
    (∃ i, i ≤ j ∧ (objective_mean <$> SimpleExperiment.trials e) !! i = Some y) ∧
    (∀ i x, i ≤ j → (objective_mean <$> SimpleExperiment.trials e) !! i = Some x →
            (y <=? x)%float = true)).
  { generalize dependent (objective_mean <$> SimpleExperiment.trials e).
    intros [|x xs] Hxs j y Hy; [done|].
    apply Forall_cons in Hxs as [Hx Hxs]. destruct j as [|j].
    - injection Hy as <-. split; [by exists 0|].
      intros [|i] x' Hi Hx'; [|lia]. injection Hx' as <-. by apply float_leb_refl.
    - cbn in Hy. destruct (running_minimum x xs j y Hx Hxs Hy) as (Hmem & Hle & Hall).
      split.
      + destruct Hmem as [-> | (i & Hi & Hmem)]; [exists 0 | exists (S i)];
          split; try done; lia.
      + intros [|i] x' Hi Hx'; [by injection Hx' as <- | apply (Hall i); [lia|done]]. }
  intros j y Hy. destruct (Hchar j y Hy) as [(i & Hi & Hmem) Hall].
  split; [|split].
  - rewrite list_lookup_fmap in Hmem.
    destruct (SimpleExperiment.trials e !! i) as [t|] eqn:Ht; [|done].
    injection Hmem as <-. by exists i, t.
  - intros i' t Hi' Ht. apply (Hall i'); [done|].
    by rewrite list_lookup_fmap, Ht.
  - intros y' Hy'. destruct (Hchar (S j) y' Hy') as [_ Hall'].
    apply (Hall' i); [lia | done].
Qed.

(** X6: a NaN objective mean spoils the trace from its trial on: every later
    entry is NaN, whatever the later objective means are. *)
Theorem best_objective_nan (e : SimpleExperiment.t GeneratorRun)
    (i : nat) (t : Trial.t GeneratorRun) :
  SimpleExperiment.trials e !! i = Some t → is_nan (objective_mean t) = true →
  ∃ row : list float,
    best_objective_y objective_mean e = [row] ∧
    ∀ (j : nat) (y : float), i ≤ j → row !! j = Some y → is_nan y = true.
Proof.
  intros Ht Hnan. eexists. split; [reflexivity|].
  assert (Hx : (objective_mean <$> SimpleExperiment.trials e) !! i
               = Some (objective_mean t))
    by by rewrite list_lookup_fmap, Ht.
  generalize dependent (objective_mean <$> SimpleExperiment.trials e).
  intros [|x xs] Hx j y Hij Hy; [done|].
  destruct i as [|i].
  - injection Hx as ->. destruct j as [|j]; [by injection Hy as <-|].
    cbn in Hy. by rewrite (running_nan_acc _ _ _ _ Hnan Hy).
  - destruct j as [|j]; [lia|]. cbn in Hx, Hy.
    apply (running_nan x xs i j _ y Hx Hnan ltac:(lia) Hy).
Qed.

End Trace.

(** X7: accumulating a trace that is already accumulated changes nothing. *)
Theorem accumulate_idempotent (a : list (list float)) :
  np_minimum.accumulate (np_minimum.accumulate a) = np_minimum.accumulate a.
Proof.
  unfold np_minimum.accumulate. rewrite <- list_fmap_compose.
  apply list_fmap_ext. intros _ [|x xs] _; [done|].
  cbn. by rewrite running_idempotent.
Qed.

(** ** The sign of the l2norm mean *)

(** Rounding a mantissa that is not negative gives neither a NaN nor a
    minus sign. *)
Lemma shr_1_nonneg (mrs : shr_record) :
  (0 ≤ shr_m mrs)%Z → (0 ≤ shr_m (shr_1 mrs))%Z.
Proof. destruct mrs as [[|[p|p|]|[p|p|]] r s]; cbn; lia. Qed.

Lemma iter_pos_shr_1_nonneg (n : positive) (mrs : shr_record) :
  (0 ≤ shr_m mrs)%Z → (0 ≤ shr_m (SpecFloat.iter_pos shr_1 n mrs))%Z.
Proof.
  revert mrs. induction n as [n IH|n IH|]; intros mrs Hm; cbn.
  - apply IH, IH, shr_1_nonneg, Hm.
  - apply IH, IH, Hm.
  - apply shr_1_nonneg, Hm.
Qed.

Lemma shr_fexp_nonneg (prec emax m e : Z) (l : location) :
  (0 ≤ m)%Z → (0 ≤ shr_m (shr_fexp prec emax m e l).1)%Z.
Proof.
  intros Hm. unfold shr_fexp, shr.
  assert (Hrec : (0 ≤ shr_m (shr_record_of_loc m l))%Z) by (by destruct l as [|[]]).
  destruct (_ - e)%Z; cbn [fst]; try done. by apply iter_pos_shr_1_nonneg.
Qed.

Lemma round_nearest_even_nonneg (m : Z) (l : location) :
  (0 ≤ m)%Z → (0 ≤ round_nearest_even m l)%Z.
Proof.
  intros Hm. destruct l as [|[]]; cbn; try done; try lia.
  destruct (Z.even m); lia.
Qed.

Lemma binary_round_aux_nonneg (prec emax m e : Z) (l : location) :
  (0 ≤ m)%Z →
  match binary_round_aux prec emax false m e l with
  | S754_nan => False
  | S754_zero b | S754_infinity b | S754_finite b _ _ => b = false
  end.
Proof.
  intros Hm. unfold binary_round_aux.
  pose proof (shr_fexp_nonneg prec emax m e l Hm) as H1.
  destruct (shr_fexp prec emax m e l) as [mrs' e']. cbn [fst] in H1.
  pose proof (shr_fexp_nonneg prec emax _ e' loc_Exact
                (round_nearest_even_nonneg _ (loc_of_shr_record mrs') H1)) as H2.
  destruct (shr_fexp prec emax _ e' loc_Exact) as [mrs'' e'']. cbn [fst] in H2.
  destruct (shr_m mrs'') as [|q|q]; [done | by destruct (_ <=? _)%Z | lia].
Qed.

Lemma SFleb_zero_round (prec emax m e : Z) (l : location) :
  (0 ≤ m)%Z →
  SFleb (S754_zero false) (binary_round_aux prec emax false m e l) = true.
Proof.
  intros Hm. pose proof (binary_round_aux_nonneg prec emax m e l Hm) as Hr.
  by destruct (binary_round_aux prec emax false m e l) as [[]|[]| |[]].
Qed.

Lemma SF64mul_self_nonneg (s : spec_float) :
  s ≠ S754_nan → SFleb (S754_zero false) (SF64mul s s) = true.
Proof.
  destruct s as [[]|[]| |[] m e]; try done; intros _;
    by apply SFleb_zero_round.
Qed.

Lemma SF64add_nonneg (s t : spec_float) :
  SFleb (S754_zero false) s = true → SFleb (S754_zero false) t = true →
  SFleb (S754_zero false) (SF64add s t) = true.
Proof.
  destruct s as [[]|[]| |[] m e], t as [[]|[]| |[] m' e']; try done; intros _ _.
  unfold SF64add, SFadd. cbn [cond_Zopp]. rewrite Pos2Z.add_pos_pos.
  unfold binary_normalize, binary_round.
  destruct (shl_align (_ + _) _ _) as [mz ez].
  by apply SFleb_zero_round.
Qed.

Lemma SF64sqrt_nonneg (s : spec_float) :
  SFleb (S754_zero false) s = true → SFleb (S754_zero false) (SF64sqrt s) = true.
Proof.
  destruct s as [[]|[]| |[] m e]; try done; intros _.
  unfold SF64sqrt, SFsqrt, SFsqrt_core_binary.
  match goal with |- context [Z.sqrtrem ?n] =>
    pose proof (Z.sqrt_nonneg n) as Hq; rewrite <- Z.sqrtrem_sqrt in Hq;
    destruct (Z.sqrtrem n) as [q r] end.
  by apply SFleb_zero_round.
Qed.

Lemma float_square_nonneg (x : float) : is_nan x = false → (0 <=? x * x)%float = true.
Proof.
  intros Hx%is_nan_false. rewrite leb_spec, mul_spec.
  by apply SF64mul_self_nonneg.
Qed.

Lemma float_square_nan (x : float) : is_nan x = true → (x * x)%float = nan.
Proof.
  intros Hx%is_nan_spec. apply Prim2SF_inj. by rewrite mul_spec, Hx.
Qed.

Lemma float_add_nonneg (x y : float) :
  (0 <=? x)%float = true → (0 <=? y)%float = true → (0 <=? x + y)%float = true.
Proof. rewrite !leb_spec, add_spec. apply SF64add_nonneg. Qed.

Lemma float_add_nan (x y : float) : x = nan ∨ y = nan → (x + y)%float = nan.
Proof.
  intros Hnan. apply Prim2SF_inj. rewrite add_spec.
  destruct Hnan as [-> | ->]; [done|]. by destruct (Prim2SF x).
Qed.

Lemma float_sqrt_nonneg (x : float) :
  (0 <=? x)%float = true → (0 <=? sqrt x)%float = true.
Proof. rewrite !leb_spec, sqrt_spec. apply SF64sqrt_nonneg. Qed.

Lemma sum_squares_nonneg (xs : list float) (acc : float) :
  (0 <=? acc)%float = true → Forall (λ x, is_nan x = false) xs →
  (0 <=? fold_left PrimFloat.add ((λ v, v * v)%float <$> xs) acc)%float = true.
Proof.
  revert acc. induction xs as [|x xs IH]; intros acc Hacc Hxs; [done|].
  apply Forall_cons in Hxs as [Hx Hxs]. cbn. apply IH; [|done].
  by apply float_add_nonneg, float_square_nonneg.
Qed.

Lemma sum_squares_nan (xs : list float) (acc : float) :
  acc = nan ∨ Exists (λ x, is_nan x = true) xs →
  fold_left PrimFloat.add ((λ v, v * v)%float <$> xs) acc = nan.
Proof.
  revert acc. induction xs as [|x xs IH]; intros acc.
  - by intros [-> | ?%Exists_nil].
  - rewrite Exists_cons. intros Hnan. cbn. apply IH.
    destruct Hnan as [-> | [Hx | Hxs]]; [left | left | by right].
    + by apply float_add_nan; left.
    + apply float_add_nan. right. by apply float_square_nan.
Qed.

Section Sign.

Context {synthetic : synthetic_functions}.

(** X8: the l2norm mean is NaN as soon as one coordinate is NaN, and only
    then: when no coordinate is NaN it is a number that is not below zero,
    infinite coordinates included. *)
Theorem l2norm_mean_nan_or_nonnegative
    (p : dict) (w : option float) (xs : list float) :
  vector p = Some <$> xs →
  ∃ (r : metrics) (l : float),
    hartmann_evaluation_function p w = (Return r, p) ∧
    r !! "l2norm" = Some (l, 0.0%float) ∧
    (Exists (λ x, is_nan x = true) xs → l = nan) ∧
    (Forall (λ x, is_nan x = false) xs → (0 <=? l)%float = true).
Proof.
  intros Hxs. eexists _, _. split; [exact (evaluation_float64 p w xs Hxs)|].
  split; [apply metrics_display_l2norm|]. split.
  - intros Hnan. rewrite sum_squares_nan by auto. reflexivity.
  - intros Hnum. apply float_sqrt_nonneg, sum_squares_nonneg; [reflexivity | done].
Qed.

End Sign.

(** ** The JavaScript helpers *)

Section Helpers.

Import js.

Lemma alloc_fresh (xs : list float) (s : state) :
  heap s !! (alloc xs s).1 = None.
Proof. apply not_elem_of_dom, is_fresh. Qed.

Lemma alloc_heap (xs : list float) (s : state) :
  heap (alloc xs s).2 = <[(alloc xs s).1 := xs]> (heap s).
Proof. reflexivity. Qed.

Lemma copy_and_reverse_run (arr : ref) (xs : list float) (s : state) :
  heap s !! arr = Some xs →
  ∃ (copy : ref) (s' : state),
    copy_and_reverse arr s = (Return copy, s') ∧
    heap s !! copy = None ∧
    heap s' !! copy = Some (rev xs) ∧
    heap s' !! arr = Some xs ∧
    (∀ r, r ≠ copy → heap s' !! r = heap s !! r) ∧
    s' = with_heap (heap s') s.
Proof.
  intros Harr. unfold copy_and_reverse, slice. rewrite Harr.
  pose proof (alloc_fresh xs s) as Hfresh.
  pose proof (alloc_heap xs s) as Hs1.
  assert (Hglobal : (alloc xs s).2 = with_heap (heap (alloc xs s).2) s)
    by reflexivity.
  destruct (alloc xs s) as [copy s1]. cbn [fst snd] in Hfresh, Hs1, Hglobal.
  unfold reverse.
  assert (Hcopy : heap s1 !! copy = Some xs) by (by rewrite Hs1, lookup_insert_eq).
  rewrite Hcopy. eexists _, _. split; [reflexivity|].
  cbn [heap with_heap]. rewrite Hs1, insert_insert_eq.
  assert (Hne : arr ≠ copy) by congruence.
  split; [done|]. split; [by rewrite lookup_insert_eq|].
  split; [by rewrite lookup_insert_ne|].
  split; [by intros r Hr; rewrite lookup_insert_ne|].
  rewrite Hglobal. reflexivity.
Qed.

(** X9: [copy_and_reverse] hands back a new array holding the elements in
    reverse order and changes nothing else: the array it was given and every
    other array are as before, and so are the global names. *)
Theorem copy_and_reverse_copies (arr : ref) (xs : list float) (s : state) :
  heap s !! arr = Some xs →
  ∃ (copy : ref) (s' : state),
    copy_and_reverse arr s = (Return copy, s') ∧
    heap s !! copy = None ∧
    heap s' !! copy = Some (rev xs) ∧
    heap s' !! arr = Some xs ∧
    (∀ r, r ≠ copy → heap s' !! r = heap s !! r) ∧
    s' = with_heap (heap s') s.
Proof. apply copy_and_reverse_run. Qed.

(** X10: reversing a copy twice gives back the elements in their first order,
    in a third array, the first two being still there untouched. *)
Theorem copy_and_reverse_twice (arr : ref) (xs : list float) (s : state) :
  heap s !! arr = Some xs →
  ∃ (c1 c2 : ref) (s1 s2 : state),
    copy_and_reverse arr s = (Return c1, s1) ∧
    copy_and_reverse c1 s1 = (Return c2, s2) ∧
    arr ≠ c1 ∧ arr ≠ c2 ∧ c1 ≠ c2 ∧
    heap s2 !! c2 = Some xs ∧
    heap s2 !! c1 = Some (rev xs) ∧
    heap s2 !! arr = Some xs.
Proof.
  intros Harr.
  destruct (copy_and_reverse_run arr xs s Harr)
    as (c1 & s1 & Hrun1 & Hfresh1 & Hc1 & Harr1 & _ & _).
  destruct (copy_and_reverse_run c1 (rev xs) s1 Hc1)
    as (c2 & s2 & Hrun2 & Hfresh2 & Hc2 & Hc1' & Hframe2 & _).
  exists c1, c2, s1, s2. rewrite rev_involutive in Hc2.
  assert (arr ≠ c1) by congruence. assert (arr ≠ c2) by congruence.
  assert (c1 ≠ c2) by congruence.
  repeat split; try done. by rewrite Hframe2.
Qed.

(** Given something that is no array, [copy_and_reverse] raises a
    [TypeError] and changes nothing. *)
Lemma copy_and_reverse_no_array (arr : ref) (s : state) :
  heap s !! arr = None → copy_and_reverse arr s = (Raise TypeError, s).
Proof. intros Harr. unfold copy_and_reverse, slice. by rewrite Harr. Qed.

End Helpers.

(** ** [Math.min], [Math.max] and [axis_range] *)

Lemma float_ltb_leb (x y : float) : (x <? y)%float = true → (x <=? y)%float = true.
Proof.
  rewrite ltb_spec, leb_spec. unfold SFltb, SFleb.
  by destruct (SFcompare _ _) as [[]|].
Qed.

Lemma float_not_ltb_leb (x y : float) :
  is_nan x = false → is_nan y = false →
  (x <? y)%float = false → (y <=? x)%float = true.
Proof.
  intros Hx%is_nan_false Hy%is_nan_false. rewrite ltb_spec, leb_spec.
  unfold SFltb, SFleb. rewrite (SFcompare_antisym (Prim2SF x) (Prim2SF y)).
  destruct (SFcompare (Prim2SF x) (Prim2SF y)) as [[]|] eqn:Hc; try done.
  by destruct (Prim2SF x) as [| | |], (Prim2SF y) as [| | |].
Qed.

Lemma is_nan_nan : is_nan nan = true.
Proof. reflexivity. Qed.

Section AxisRange.

Import js.

Lemma min2_cases (a b : float) :
  is_nan a = false → is_nan b = false →
  (min2 a b = a ∨ min2 a b = b) ∧
  (min2 a b <=? a)%float = true ∧ (min2 a b <=? b)%float = true.
Proof.
  intros Ha Hb. unfold min2. rewrite Ha, Hb. cbn [orb].
  destruct (a <? b)%float eqn:Hab.
  { auto using float_leb_refl, float_ltb_leb. }
  destruct (b <? a)%float eqn:Hba.
  { auto using float_leb_refl, float_ltb_leb. }
  destruct (get_sign a); auto using float_leb_refl, float_not_ltb_leb.
Qed.

Lemma max2_cases (a b : float) :
  is_nan a = false → is_nan b = false →
  (max2 a b = a ∨ max2 a b = b) ∧
  (a <=? max2 a b)%float = true ∧ (b <=? max2 a b)%float = true.
Proof.
  intros Ha Hb. unfold max2. rewrite Ha, Hb. cbn [orb].
  destruct (a <? b)%float eqn:Hab.
  { auto using float_leb_refl, float_ltb_leb. }
  destruct (b <? a)%float eqn:Hba.
  { auto using float_leb_refl, float_ltb_leb. }
  destruct (get_sign a); auto using float_leb_refl, float_not_ltb_leb.
Qed.

Lemma min2_nan (a b : float) :
  is_nan a = true ∨ is_nan b = true → min2 a b = nan.
Proof. unfold min2. by intros [-> | ->]; rewrite ?orb_true_r. Qed.

Lemma max2_nan (a b : float) :
  is_nan a = true ∨ is_nan b = true → max2 a b = nan.
Proof. unfold max2. by intros [-> | ->]; rewrite ?orb_true_r. Qed.

(** The values the two folds start from give way to any number. *)
Lemma min2_infinity (x : float) : is_nan x = false → min2 infinity x = x.
Proof.
  intros Hx. unfold min2. rewrite Hx.
  change (is_nan infinity) with false. cbn [orb].
  assert (Hlt : (infinity <? x)%float = false).
  { rewrite ltb_spec. change (Prim2SF infinity) with (S754_infinity false).
    unfold SFltb. by destruct (Prim2SF x) as [[]|[]| |[]]. }
  rewrite Hlt. change (get_sign infinity) with false.
  by destruct (x <? infinity)%float.
Qed.

Lemma max2_neg_infinity (x : float) : is_nan x = false → max2 neg_infinity x = x.
Proof.
  intros Hx. unfold max2. rewrite Hx.
  change (is_nan neg_infinity) with false. cbn [orb].
  assert (Hlt : (x <? neg_infinity)%float = false).
  { rewrite ltb_spec. change (Prim2SF neg_infinity) with (S754_infinity true).
    unfold SFltb. by destruct (Prim2SF x) as [[]|[]| |[]]. }
  rewrite Hlt. change (get_sign neg_infinity) with true.
  by destruct (neg_infinity <? x)%float.
Qed.

Lemma fold_min2 (xs : list float) (acc : float) :
  is_nan acc = false → Forall (λ x, is_nan x = false) xs →
  (fold_left min2 xs acc = acc ∨ fold_left min2 xs acc ∈ xs) ∧
  (fold_left min2 xs acc <=? acc)%float = true ∧
  (∀ x, x ∈ xs → (fold_left min2 xs acc <=? x)%float = true).
Proof.
  revert acc. induction xs as [|x xs IH]; intros acc Hacc Hxs.
  { cbn. split; [by left|]. split; [by apply float_leb_refl|].
    by intros x ?%elem_of_nil. }
  apply Forall_cons in Hxs as [Hx Hxs].
  destruct (min2_cases acc x Hacc Hx) as (Hsel & Hle_acc & Hle_x).
  assert (Hnan : is_nan (min2 acc x) = false) by (by destruct Hsel as [-> | ->]).
  destruct (IH (min2 acc x) Hnan Hxs) as (Hmem & Hle & Hall). cbn [fold_left].
  split; [|split].
  - destruct Hmem as [-> | Hmem].
    + destruct Hsel as [-> | ->]; [by left | right; by left].
    + right. by right.
  - by eapply float_leb_trans.
  - intros x' [-> | Hx']%elem_of_cons; [by eapply float_leb_trans | by apply Hall].
Qed.

Lemma fold_max2 (xs : list float) (acc : float) :
  is_nan acc = false → Forall (λ x, is_nan x = false) xs →
  (fold_left max2 xs acc = acc ∨ fold_left max2 xs acc ∈ xs) ∧
  (acc <=? fold_left max2 xs acc)%float = true ∧
  (∀ x, x ∈ xs → (x <=? fold_left max2 xs acc)%float = true).
Proof.
  revert acc. induction xs as [|x xs IH]; intros acc Hacc Hxs.
  { cbn. split; [by left|]. split; [by apply float_leb_refl|].
    by intros x ?%elem_of_nil. }
  apply Forall_cons in Hxs as [Hx Hxs].
  destruct (max2_cases acc x Hacc Hx) as (Hsel & Hle_acc & Hle_x).
  assert (Hnan : is_nan (max2 acc x) = false) by (by destruct Hsel as [-> | ->]).
  destruct (IH (max2 acc x) Hnan Hxs) as (Hmem & Hle & Hall). cbn [fold_left].
  split; [|split].
  - destruct Hmem as [-> | Hmem].
    + destruct Hsel as [-> | ->]; [by left | right; by left].
    + right. by right.
  - by eapply float_leb_trans.
  - intros x' [-> | Hx']%elem_of_cons; [by eapply float_leb_trans | by apply Hall].
Qed.

Lemma fold_min2_nan (xs : list float) (acc : float) :
  is_nan acc = true ∨ Exists (λ x, is_nan x = true) xs →
  fold_left min2 xs acc = nan.
Proof.
  revert acc. induction xs as [|x xs IH]; intros acc.
  - intros [Hacc | Hex%Exists_nil]; [by apply is_nan_eq | done].
  - intros Hnan. cbn [fold_left]. apply IH.
    rewrite Exists_cons in Hnan.
    destruct Hnan as [Hacc | [Hx | Hxs]]; [left | left | by right];
      by rewrite min2_nan by auto.
Qed.

Lemma fold_max2_nan (xs : list float) (acc : float) :
  is_nan acc = true ∨ Exists (λ x, is_nan x = true) xs →
  fold_left max2 xs acc = nan.
Proof.
  revert acc. induction xs as [|x xs IH]; intros acc.
  - intros [Hacc | Hex%Exists_nil]; [by apply is_nan_eq | done].
  - intros Hnan. cbn [fold_left]. apply IH.
    rewrite Exists_cons in Hnan.
    destruct Hnan as [Hacc | [Hx | Hxs]]; [left | left | by right];
      by rewrite max2_nan by auto.
Qed.

Context {math : Math}.

(** X11: on a grid without NaN, [axis_range] returns a lower bound that no
    element is below and an upper bound that no element is above; both are
    elements of the grid when it has any, and they are [Infinity] and
    [-Infinity], in this order, when it is empty.  With [is_log] the two
    numbers returned are the [Math.log10] of these. *)
Theorem axis_range_bounds (grid : list float) :
  Forall (λ x, is_nan x = false) grid →
  ∃ lo hi : float,
    axis_range grid false = [lo; hi] ∧
    axis_range grid true = [Math_log10 lo; Math_log10 hi] ∧
    (∀ x, x ∈ grid → (lo <=? x)%float = true ∧ (x <=? hi)%float = true) ∧
    (grid ≠ [] → lo ∈ grid ∧ hi ∈ grid) ∧
    (grid = [] → lo = infinity ∧ hi = neg_infinity).
Proof.
  intros Hgrid. eexists _, _. split; [reflexivity|]. split; [reflexivity|].
  unfold Math_min, Math_max. destruct grid as [|x xs].
  { split; [by intros x ?%elem_of_nil|]. done. }
  apply Forall_cons in Hgrid as [Hx Hxs]. cbn [fold_left].
  rewrite (min2_infinity x Hx), (max2_neg_infinity x Hx).
  destruct (fold_min2 xs x Hx Hxs) as (Hmin_mem & Hmin_x & Hmin_all).
  destruct (fold_max2 xs x Hx Hxs) as (Hmax_mem & Hmax_x & Hmax_all).
  split; [|split; [|done]].
  - intros x' [-> | Hx']%elem_of_cons; [done | auto].
  - intros _. split.
    + destruct Hmin_mem as [-> | ?]; [by left | by right].
    + destruct Hmax_mem as [-> | ?]; [by left | by right].
Qed.

(** X12: one NaN in the grid makes both bounds NaN. *)
Theorem axis_range_nan (grid : list float) :
  Exists (λ x, is_nan x = true) grid → axis_range grid false = [nan; nan].
Proof.
  intros Hnan. unfold axis_range, Math_min, Math_max.
  by rewrite fold_min2_nan, fold_max2_nan by auto.
Qed.

End AxisRange.

(** ** [relativize] and [relativize_data] *)

Section Relativize.

Import js.
Context {math : Math}.

Lemma push_array (arr : ref) (xs : list float) (x : float) (s : state) :
  heap s !! arr = Some xs →
  push arr x s = (Return (), with_heap (<[arr := xs ++ [x]]> (heap s)) s).
Proof. intros Harr. unfold push. by rewrite Harr. Qed.

Lemma relativize_run (m_t sem_t m_c sem_c : option float) (s : state) :
  ∃ (r_hat variance : float),
    let res := (relativize m_t sem_t m_c sem_c s).1 in
    let s' := (relativize m_t sem_t m_c sem_c s).2 in
    heap s !! res = None ∧
    heap s' = <[res := [r_hat; Math_sqrt variance]]> (heap s) ∧
    global_r_hat s' = Some r_hat ∧
    global_variance s' = Some variance ∧
    global_res s' = global_res s.
Proof.
  eexists _, _. cbn zeta. split; [|by repeat split].
  apply not_elem_of_dom, is_fresh.
Qed.

(** X13: [relativize] returns a new array of two numbers, and because it
    assigns [r_hat] and [variance] without declaring them it leaves its two
    intermediate results in the global names [r_hat] and [variance]; the
    arrays that existed are untouched. *)
Theorem relativize_globals (m_t sem_t m_c sem_c : option float) (s : state) :
  ∃ (r_hat variance : float),
    let res := (relativize m_t sem_t m_c sem_c s).1 in
    let s' := (relativize m_t sem_t m_c sem_c s).2 in
    heap s !! res = None ∧
    heap s' = <[res := [r_hat; Math_sqrt variance]]> (heap s) ∧
    global_r_hat s' = Some r_hat ∧
    global_variance s' = Some variance ∧
    global_res s' = global_res s.
Proof. apply relativize_run. Qed.

Lemma relativize_loop_run (rest : list float) (i : nat) (sd_elems : list float)
    (f_sq sd_sq : option float) (f_final sd_final : ref) (s : state)
    (a b : list float) :
  f_final ≠ sd_final →
  heap s !! f_final = Some a → heap s !! sd_final = Some b →
  ∃ (s' : state) (a' b' : list float),
    relativize_loop rest i sd_elems f_sq sd_sq f_final sd_final s = (Return (), s') ∧
    heap s' !! f_final = Some (a ++ a') ∧ heap s' !! sd_final = Some (b ++ b') ∧
    length a' = length rest ∧ length b' = length rest ∧
    (∀ r, r ≠ f_final → r ≠ sd_final → is_Some (heap s !! r) →
          heap s' !! r = heap s !! r).
Proof.
  revert i s a b. induction rest as [|f_i rest IH]; intros i s a b Hne Hf Hsd.
  { exists s, [], []. rewrite !app_nil_r. by repeat split. }
  cbn [relativize_loop].
  destruct (relativize_run (Some f_i) (sd_elems !! i) f_sq sd_sq s)
    as (r_hat & variance & Hfresh & Hheap & _).
  cbn zeta in Hfresh, Hheap.
  destruct (relativize (Some f_i) (sd_elems !! i) f_sq sd_sq s) as [res s1].
  cbn [fst snd] in Hfresh, Hheap. cbn [heap].
  assert (res ≠ f_final) by congruence. assert (res ≠ sd_final) by congruence.
  rewrite Hheap, lookup_insert_eq.
  erewrite push_array; [|by cbn [heap]; rewrite lookup_insert_ne].
  erewrite push_array;
    [|by cbn [heap with_heap]; rewrite !lookup_insert_ne].
  edestruct (IH (S i)) as (s' & a' & b' & -> & Hf' & Hsd' & Hla & Hlb & Hframe);
    [exact Hne | | |].
  { cbn [heap with_heap]. by rewrite lookup_insert_ne, lookup_insert_eq. }
  { cbn [heap with_heap]. by rewrite lookup_insert_eq. }
  eexists s', (_ :: a'), (_ :: b'). split; [reflexivity|].
  rewrite <- !app_assoc in Hf', Hsd'. split; [exact Hf'|]. split; [exact Hsd'|].
  split; [by cbn; f_equal|]. split; [by cbn; f_equal|].
  intros r Hr1 Hr2 Hr. assert (r ≠ res) by (intros ->; by destruct Hr; congruence).
  rewrite Hframe; [| done | done |].
  - cbn [heap with_heap]. by rewrite !lookup_insert_ne.
  - cbn [heap with_heap]. by rewrite !lookup_insert_ne.
Qed.

(** X14: with [rel === true] and the status quo arm among the arms,
    [relativize_data] returns two new arrays, distinct from each other, each
    as long as [f] whatever the length of [sd], and leaves [f], [sd] and
    every other array that existed as they were. *)
Theorem relativize_data_relative (f sd : ref) (arm_data : arm_data_t)
    (metric : string) (s : state) (f_elems sd_elems : list float) (sq : arm) :
  heap s !! f = Some f_elems → heap s !! sd = Some sd_elems →
  status_quo arm_data = Some sq →
  ∃ (f_final sd_final : ref) (s' : state) (f_out sd_out : list float),
    relativize_data f sd (Boolean true) arm_data metric s
      = (Return (f_final, sd_final), s') ∧
    heap s !! f_final = None ∧ heap s !! sd_final = None ∧ f_final ≠ sd_final ∧
    heap s' !! f_final = Some f_out ∧ heap s' !! sd_final = Some sd_out ∧
    length f_out = length f_elems ∧ length sd_out = length f_elems ∧
    (∀ r, is_Some (heap s !! r) → heap s' !! r = heap s !! r).
Proof.
  intros Hf Hsd Hsq. unfold relativize_data. cbn [is_true]. rewrite Hsq.
  pose proof (alloc_fresh [] s) as Hfresh1.
  pose proof (alloc_heap [] s) as Hheap1.
  destruct (alloc [] s) as [f_final s1]. cbn [fst snd] in Hfresh1, Hheap1.
  pose proof (alloc_fresh [] s1) as Hfresh2.
  pose proof (alloc_heap [] s1) as Hheap2.
  destruct (alloc [] s1) as [sd_final s2]. cbn [fst snd] in Hfresh2, Hheap2.
  assert (Hne : f_final ≠ sd_final).
  { intros ->. by rewrite Hheap1, lookup_insert_eq in Hfresh2. }
  assert (Hframe2 : ∀ r, is_Some (heap s !! r) → heap s2 !! r = heap s !! r).
  { intros r Hr. rewrite Hheap2, Hheap1, !lookup_insert_ne; [done| |];
      intros ->; destruct Hr as [? Hr]; [|rewrite Hheap1, lookup_insert_ne in Hfresh2];
      congruence. }
  rewrite (Hframe2 f), (Hframe2 sd), Hf, Hsd by eauto.
  destruct (relativize_loop_run f_elems 0 sd_elems (y sq !! metric) (se sq !! metric)
              f_final sd_final s2 [] [] Hne)
    as (s' & a' & b' & -> & Hf' & Hsd' & Hla & Hlb & Hframe).
  { by rewrite Hheap2, lookup_insert_ne, Hheap1, lookup_insert_eq. }
  { by rewrite Hheap2, lookup_insert_eq. }
  exists f_final, sd_final, s', a', b'. split; [reflexivity|].
  assert (Hsd_fresh : heap s !! sd_final = None).
  { rewrite Hheap1, lookup_insert_ne in Hfresh2; done. }
  repeat split; try done.
  intros r Hr. rewrite Hframe.
  - by apply Hframe2.
  - intros ->. destruct Hr; congruence.
  - intros ->. destruct Hr; congruence.
  - rewrite Hframe2; done.
Qed.

(** X15: with [rel === true] and no arm under the status quo name,
    [relativize_data] raises a [TypeError]; the arrays that existed are as
    they were. *)
Theorem relativize_data_no_status_quo (f sd : ref) (arm_data : arm_data_t)
    (metric : string) (s : state) :
  status_quo arm_data = None →
  ∃ s' : state,
    relativize_data f sd (Boolean true) arm_data metric s = (Raise TypeError, s') ∧
    (∀ r, is_Some (heap s !! r) → heap s' !! r = heap s !! r).
Proof.
  intros Hsq. unfold relativize_data. cbn [is_true]. rewrite Hsq.
  pose proof (alloc_fresh [] s) as Hfresh1.
  pose proof (alloc_heap [] s) as Hheap1.
  destruct (alloc [] s) as [f_final s1]. cbn [fst snd] in Hfresh1, Hheap1.
  pose proof (alloc_fresh [] s1) as Hfresh2.
  pose proof (alloc_heap [] s1) as Hheap2.
  destruct (alloc [] s1) as [sd_final s2]. cbn [fst snd] in Hfresh2, Hheap2.
  eexists. split; [reflexivity|].
  intros r Hr. rewrite Hheap2, Hheap1, !lookup_insert_ne; [done| |];
    intros ->; destruct Hr as [? Hr]; [|rewrite Hheap1, lookup_insert_ne in Hfresh2];
    congruence.
Qed.

(** X16: unless [rel] is the boolean [true] itself, [relativize_data] hands
    back the very arrays it was given, not copies, reads nothing of
    [arm_data] and changes nothing. *)
Theorem relativize_data_not_relative (f sd : ref) (rel : value)
    (arm_data : arm_data_t) (metric : string) (s : state) :
  rel ≠ Boolean true →
  relativize_data f sd rel arm_data metric s = (Return (f, sd), s).
Proof.
  intros Hrel. unfold relativize_data.
  assert (is_true rel = false) as -> by (by destruct rel as [|[]| |]).
  reflexivity.
Qed.

End Relativize.

(** ** The statements at the sample inputs, continued *)

(** The recorded series is what the model computes from itself: an
    accumulated trace. *)
Example recorded_y_accumulated :
  np_minimum.accumulate [recorded_y] = [recorded_y] ∧
  best_objective_y (ax := counting) sample_objective_mean sample_experiment
    = [recorded_y].
Proof. vm_compute. split; reflexivity. Qed.

Example copy_and_reverse_sample :
  (js.copy_and_reverse 1 sample_state).1 = Return 3%positive ∧
  js.heap (js.copy_and_reverse 1 sample_state).2
    = {[ 1%positive := [1.0; 2.0; 4.0]%float; 2%positive := [0.5]%float;
         3%positive := [4.0; 2.0; 1.0]%float ]}.
Proof. vm_compute. split; reflexivity. Qed.

Example axis_range_sample :
  js.axis_range (H := sample_math) [3.0; -0.0; 0.0; 2.0]%float false
    = [-0.0; 3.0]%float ∧
  js.axis_range (H := sample_math) [] false = [infinity; neg_infinity].
Proof. vm_compute. split; reflexivity. Qed.

(** With a status quo mean of 2 and no noise, the means 1, 2, 4 become
    -50, 0 and 100 percent; the second array has one element only, so the
    other standard errors are NaN. *)
Example relativize_data_sample :
  let run := js.relativize_data (H := sample_math) 1 2 (js.Boolean true)
               sample_arm_data "hartmann6" sample_state in
  run.1 = Return (3%positive, 4%positive) ∧
  js.heap run.2 !! 3%positive = Some [-50.0; 0.0; 100.0]%float ∧
  js.heap run.2 !! 4%positive = Some [25.0; nan; nan]%float ∧
  js.global_r_hat run.2 = Some 1.0%float.
Proof. vm_compute. repeat split; reflexivity. Qed.

Lemma sample_covers_search_space (q : RangeParameter.t) :
  q ∈ SearchSpace.parameters
        (SimpleExperiment.search_space (exp (synthetic := stand_in) (ax := counting))) →
  is_Some (sample !! RangeParameter.name q).
Proof.
  revert q. apply Forall_forall.
  repeat (constructor; [by eexists|]). constructor.
Qed.

Lemma search_space_parameterization_evaluates_witness :
  ∃ r : metrics,
    SimpleExperiment.evaluation_function (exp (synthetic := stand_in) (ax := counting))
      sample None = (Return r, sample) ∧
    is_Some (r !! "hartmann6") ∧ is_Some (r !! "l2norm").
Proof.
  destruct (search_space_parameterization_evaluates (synthetic := stand_in)
              (ax := counting) sample None sample_covers_search_space)
    as (r & Hr & Hobjective & Hconstraints).
  exists r. split; [exact Hr|]. split; [exact Hobjective|].
  exact (Forall_inv Hconstraints).
Defined.

Lemma sample_objective_means_numbers :
  Forall (λ t, is_nan (sample_objective_mean t) = false)
         (SimpleExperiment.trials sample_experiment).
Proof.
  assert (H : forallb (λ t, negb (is_nan (sample_objective_mean t)))
                (SimpleExperiment.trials sample_experiment) = true)
    by (vm_compute; reflexivity).
  rewrite forallb_forall in H. apply Forall_forall. intros t Ht.
  apply list_elem_of_In in Ht. specialize (H t Ht).
  exact (proj1 (negb_true_iff _) H).
Qed.

Lemma best_objective_running_minimum_witness :
  ∃ row : list float,
    best_objective_y (ax := counting) sample_objective_mean sample_experiment = [row] ∧
    length row = 20 ∧
    ∀ (j : nat) (y y' : float),
      row !! j = Some y → row !! S j = Some y' → (y' <=? y)%float = true.
Proof.
  destruct (best_objective_running_minimum (ax := counting) sample_objective_mean
              sample_experiment sample_objective_means_numbers)
    as (row & Hrow & Hlen & Hmin).
  exists row. split; [exact Hrow|]. split; [exact Hlen|].
  intros j y y' Hy Hy'. exact (proj2 (proj2 (Hmin j y Hy)) y' Hy').
Defined.

Lemma best_objective_nan_witness :
  ∃ row : list float,
    best_objective_y (ax := counting) sample_objective_mean_nan sample_experiment
      = [row] ∧
    ∀ (j : nat) (y : float), 2 ≤ j → row !! j = Some y → is_nan y = true.
Proof.
  exact (best_objective_nan (ax := counting) sample_objective_mean_nan
           sample_experiment 2
           {| Trial.index := 2; Trial.generator_run := (None, 2) |}
           eq_refl eq_refl).
Defined.

Lemma copy_and_reverse_copies_witness :
  ∃ (copy : js.ref) (s' : js.state),
    js.copy_and_reverse 1 sample_state = (Return copy, s') ∧
    js.heap sample_state !! copy = None ∧
    js.heap s' !! copy = Some (rev [1.0; 2.0; 4.0]%float) ∧
    js.heap s' !! 1%positive = Some [1.0; 2.0; 4.0]%float ∧
    (∀ r, r ≠ copy → js.heap s' !! r = js.heap sample_state !! r) ∧
    s' = js.with_heap (js.heap s') sample_state.
Proof.
  exact (copy_and_reverse_copies 1 [1.0; 2.0; 4.0]%float sample_state eq_refl).
Defined.

Lemma copy_and_reverse_twice_witness :
  ∃ (c1 c2 : js.ref) (s1 s2 : js.state),
    js.copy_and_reverse 1 sample_state = (Return c1, s1) ∧
    js.copy_and_reverse c1 s1 = (Return c2, s2) ∧
    1%positive ≠ c1 ∧ 1%positive ≠ c2 ∧ c1 ≠ c2 ∧
    js.heap s2 !! c2 = Some [1.0; 2.0; 4.0]%float ∧
    js.heap s2 !! c1 = Some (rev [1.0; 2.0; 4.0]%float) ∧
    js.heap s2 !! 1%positive = Some [1.0; 2.0; 4.0]%float.
Proof.
  exact (copy_and_reverse_twice 1 [1.0; 2.0; 4.0]%float sample_state eq_refl).
Defined.

Lemma sample_grid_numbers :
  Forall (λ x, is_nan x = false) [3.0; -0.0; 0.0; 2.0]%float.
Proof. repeat (constructor; [reflexivity|]). constructor. Qed.

Lemma axis_range_bounds_witness :
  ∃ lo hi : float,
    js.axis_range (H := sample_math) [3.0; -0.0; 0.0; 2.0]%float false = [lo; hi] ∧
    (∀ x, x ∈ [3.0; -0.0; 0.0; 2.0]%float →
          (lo <=? x)%float = true ∧ (x <=? hi)%float = true).
Proof.
  destruct (axis_range_bounds (math := sample_math) [3.0; -0.0; 0.0; 2.0]%float
              sample_grid_numbers)
    as (lo & hi & Hrange & _ & Hbounds & _).
  exists lo, hi. split; [exact Hrange | exact Hbounds].
Defined.

Lemma sample_grid_nan : Exists (λ x, is_nan x = true) [1.0; nan; 2.0]%float.
Proof. right. left. reflexivity. Qed.

Lemma axis_range_nan_witness :
  js.axis_range (H := sample_math) [1.0; nan; 2.0]%float false = [nan; nan].
Proof. exact (axis_range_nan (math := sample_math) _ sample_grid_nan). Defined.

Lemma relativize_data_relative_witness :
  ∃ (f_final sd_final : js.ref) (s' : js.state) (f_out sd_out : list float),
    js.relativize_data (H := sample_math) 1 2 (js.Boolean true) sample_arm_data
      "hartmann6" sample_state = (Return (f_final, sd_final), s') ∧
    js.heap s' !! f_final = Some f_out ∧ js.heap s' !! sd_final = Some sd_out ∧
    length f_out = 3 ∧ length sd_out = 3 ∧
    js.heap s' !! 1%positive = Some [1.0; 2.0; 4.0]%float ∧
    js.heap s' !! 2%positive = Some [0.5]%float.
Proof.
  destruct (relativize_data_relative (math := sample_math) 1 2 sample_arm_data
              "hartmann6" sample_state [1.0; 2.0; 4.0]%float [0.5]%float
              {| js.y := {[ "hartmann6" := 2.0%float ]};
                 js.se := {[ "hartmann6" := 0.0%float ]} |}
              eq_refl eq_refl eq_refl)
    as (f_final & sd_final & s' & f_out & sd_out
        & Hrun & _ & _ & _ & Hf & Hsd & Hlf & Hlsd & Hframe).
  exists f_final, sd_final, s', f_out, sd_out.
  split; [exact Hrun|]. split; [exact Hf|]. split; [exact Hsd|].
  split; [exact Hlf|]. split; [exact Hlsd|].
  split; [exact (Hframe 1%positive (mk_is_Some _ _ eq_refl))
         | exact (Hframe 2%positive (mk_is_Some _ _ eq_refl))].
Defined.

Lemma relativize_data_no_status_quo_witness :
  ∃ s' : js.state,
    js.relativize_data (H := sample_math) 1 2 (js.Boolean true) sample_arm_data_null
      "hartmann6" sample_state = (Raise TypeError, s') ∧
    (∀ r, is_Some (js.heap sample_state !! r) →
          js.heap s' !! r = js.heap sample_state !! r).
Proof.
  exact (relativize_data_no_status_quo (math := sample_math) 1 2
           sample_arm_data_null "hartmann6" sample_state eq_refl).
Defined.

Lemma number_one_is_not_true : js.Number 1.0 ≠ js.Boolean true.
Proof. discriminate. Qed.

Lemma relativize_data_not_relative_witness :
  js.relativize_data (H := sample_math) 1 2 (js.Number 1.0) sample_arm_data_null
    "hartmann6" sample_state = (Return (1%positive, 2%positive), sample_state).
Proof.
  exact (relativize_data_not_relative (math := sample_math) 1 2 (js.Number 1.0)
           sample_arm_data_null "hartmann6" sample_state number_one_is_not_true).
Defined.

Lemma sample_vector :
  vector sample = Some <$> [0.5; 0.25; 0.75; 0.0; 1.0; 0.125]%float.
Proof. reflexivity. Qed.

Lemma sample_coordinates_numbers :
  Forall (λ x, is_nan x = false) [0.5; 0.25; 0.75; 0.0; 1.0; 0.125]%float.
Proof. repeat (constructor; [reflexivity|]). constructor. Qed.

Lemma l2norm_mean_nan_or_nonnegative_witness :
  ∃ (r : metrics) (l : float),
    hartmann_evaluation_function (synthetic := stand_in) sample None
      = (Return r, sample) ∧
    r !! "l2norm" = Some (l, 0.0%float) ∧ (0 <=? l)%float = true.
Proof.
  destruct (l2norm_mean_nan_or_nonnegative (synthetic := stand_in) sample None
              _ sample_vector)
    as (r & l & Hr & Hl & _ & Hsign).
  exists r, l. split; [exact Hr|]. split; [exact Hl|].
  exact (Hsign sample_coordinates_numbers).
Defined.
